(** * Database readiness check: a shallow embedding of [scripts/check-db.js]

  The script validates two connection strings, then, per data source,
  connects, gates on the reported server version, refuses databases that
  still carry v1 migrations, and shells out to the migration tool.

  The embedding keeps the control flow of the script: a writer/exception
  monad records every observable action (console lines, client calls, the
  external command, process exit) in a trace, and the answers of the
  outside world (database, migration tool) are read from an explicit
  record of responses. *)

From Stdlib Require Import ZArith NArith Ascii String List Bool Lia.
From Stdlib Require Import DecimalString.
From stdpp Require Import base option strings list gmap.

(* ===================================================================== *)
(** ** JavaScript values used by the script *)
(* ===================================================================== *)

Module Js.

(** A value that is either [undefined] or a string: what
    [process.env[name]] and a property read on a result row give. *)
Definition value := option string.

(** Truthiness of such a value: [undefined] and [''] are falsy. *)
Definition truthy (v : value) : bool :=
  match v with
  | None => false
  | Some s => negb (String.eqb s "")
  end.

(** Interpolation [`${v}`] of such a value in a template literal. *)
Definition interp (v : value) : string :=
  match v with
  | None => "undefined"
  | Some s => s
  end.

(** [s.split(sep)] for a one-character separator. The result is never
    empty: [''.split(':')] is [['']]. *)
Fixpoint split (sep : ascii) (s : string) : list string :=
  match s with
  | EmptyString => [EmptyString]
  | String c s' =>
      if Ascii.eqb c sep then EmptyString :: split sep s'
      else match split sep s' with
           | [] => [String c EmptyString]
           | piece :: pieces => String c piece :: pieces
           end
  end.

(** [s.includes(c)] for a single character. *)
Fixpoint has_char (c : ascii) (s : string) : bool :=
  match s with
  | EmptyString => false
  | String d s' => Ascii.eqb d c || has_char c s'
  end.

(** [msg.includes(part)]. *)
Fixpoint includes (msg part : string) : bool :=
  String.prefix part msg ||
  match msg with
  | EmptyString => false
  | String _ msg' => includes msg' part
  end.

End Js.

(* ===================================================================== *)
(** ** [getDatabaseType] (lines 17-25) *)
(* ===================================================================== *)

(** [const type = url && url.split(':')[0]]: a falsy [url] is returned as
  it is, otherwise the first piece of the split. *)
Definition getDatabaseType (url : Js.value) : Js.value :=
  let type :=
    if Js.truthy url then
      match url with
      | Some u => Js.split ":" u !! 0%nat
      | None => None
      end
    else url in
  if decide (type = Some "postgres") then Some "postgresql" else type.

(** The scheme of a URL, as the specification words it: the part before
  the first colon (the whole string when there is no colon). *)
Definition is_scheme (scheme url : string) : Prop :=
  Js.has_char ":" scheme = false /\
  (url = scheme \/ exists rest, url = scheme +:+ ":" +:+ rest).

(* ===================================================================== *)
(** ** Semantic versions (the [semver] package) *)
(* ===================================================================== *)

Module Semver.

(** A normalized version: what [semver.valid(semver.coerce(s))] denotes
    when it is not [null]. Its canonical text is [major.minor.patch]. *)
Record t := mk { major : N; minor : N; patch : N }.

Definition show_N (n : N) : string := NilEmpty.string_of_uint (N.to_uint n).

(** The [version] string of a normalized version. *)
Definition format (v : t) : string :=
  show_N (major v) +:+ "." +:+ show_N (minor v) +:+ "." +:+ show_N (patch v).

(** [compareIdentifiers] on numeric identifiers. *)
Definition compareIdentifiers (a b : N) : comparison := N.compare a b.

(** [compareMain]: major, then minor, then patch. *)
Definition compare (a b : t) : comparison :=
  match compareIdentifiers (major a) (major b) with
  | Eq =>
      match compareIdentifiers (minor a) (minor b) with
      | Eq => compareIdentifiers (patch a) (patch b)
      | c => c
      end
  | c => c
  end.

(** [semver.lt(a, b)]. *)
Definition lt (a b : t) : bool :=
  match compare a b with
  | Lt => true
  | _ => false
  end.

(** The major.minor.patch ordering, as a specification. *)
Definition precedes (a b : t) : Prop :=
  (major a < major b)%N \/
  (major a = major b /\
   ((minor a < minor b)%N \/ (minor a = minor b /\ (patch a < patch b)%N))).

(** *** A reference instance of [coerce]

    The script takes [coerce] from the package; the development is
    parametric in it. The instance below follows the package's coercion
    pattern [(^|[^\d])(\d{1,16})(?:\.(\d{1,16}))?(?:\.(\d{1,16}))?(?:$|[^\d])]
    and strict parse, and is used to run the script on sample inputs. *)

Definition is_digit (c : ascii) : bool :=
  (48 <=? nat_of_ascii c)%nat && (nat_of_ascii c <=? 57)%nat.

(** The longest run of digits at the head of the input, and what follows. *)
Fixpoint span_digits (s : list ascii) : list ascii * list ascii :=
  match s with
  | c :: s' =>
      if is_digit c then let '(run, rest) := span_digits s' in (c :: run, rest)
      else ([], s)
  | [] => ([], [])
  end.

Definition MAX_SAFE_COMPONENT_LENGTH : nat := 16.
Definition MAX_SAFE_INTEGER : N := 9007199254740991.

(** The first run of at most 16 digits that is not preceded by a digit.
    A longer run cannot be matched in part, since what follows a matched
    component must not be a digit. *)
Fixpoint find_major (boundary : bool) (s : list ascii)
  : option (list ascii * list ascii) :=
  match s with
  | [] => None
  | c :: s' =>
      if is_digit c then
        if boundary then
          let '(run, rest) := span_digits s in
          if (length run <=? MAX_SAFE_COMPONENT_LENGTH)%nat then Some (run, rest)
          else find_major false s'
        else find_major false s'
      else find_major true s'
  end.

(** An optional [.digits] group at the head of the input. *)
Definition dot_component (s : list ascii) : option (list ascii * list ascii) :=
  match s with
  | c :: s' =>
      if Ascii.eqb c "." then
        let '(run, rest) := span_digits s' in
        if (1 <=? length run)%nat && (length run <=? MAX_SAFE_COMPONENT_LENGTH)%nat
        then Some (run, rest) else None
      else None
  | [] => None
  end.

Definition digit_value (c : ascii) : N := N.of_nat (nat_of_ascii c - 48).

Definition number (ds : list ascii) : N :=
  fold_left (fun acc c => (10 * acc + digit_value c)%N) ds 0%N.

(** A numeric identifier of the strict grammar: no leading zero, and a
    value that is a safe integer. *)
Definition numeric_identifier (ds : list ascii) : option N :=
  match ds with
  | [] => None
  | c :: ds' =>
      if Ascii.eqb c "0" && negb (Nat.eqb (length ds') 0) then None
      else if (number ds <=? MAX_SAFE_INTEGER)%N then Some (number ds) else None
  end.

Definition zero : list ascii := ["0"%char].

Definition coerce (s : string) : option t :=
  match find_major true (list_ascii_of_string s) with
  | None => None
  | Some (maj, rest) =>
      let '(min, pat) :=
        match dot_component rest with
        | Some (min, rest') =>
            match dot_component rest' with
            | Some (pat, _) => (min, pat)
            | None => (min, zero)
            end
        | None => (zero, zero)
        end in
      match numeric_identifier maj, numeric_identifier min, numeric_identifier pat with
      | Some a, Some b, Some c => Some (mk a b c)
      | _, _, _ => None
      end
  end.

End Semver.

(* ===================================================================== *)
(** ** Observable actions and the control monad *)
(* ===================================================================== *)

(** How a console line is decorated: [success] prints a green tick line,
    [error] a red cross line, the final line is blue, the skip notice is
    plain. *)
Inductive Style := Tick | Cross | Blue | Plain.

(** What the script does to the outside world, in the order it does it.
    A client is identified by the URL it was constructed with. *)
Inductive Event :=
| Log (style : Style) (msg : string)
| Connect (url : Js.value)
| Query (url : Js.value) (sql : string)
| Exec (cmd : string)
| Disconnect (url : Js.value)
| Exit (code : Z).

Definition Trace := list Event.

(** How a piece of the script completes: normally with a value, by a
    thrown [Error] (its [message]), or by [process.exit]. *)
Inductive Completion (A : Type) :=
| Normal (a : A)
| Thrown (msg : string)
| Exited (code : Z).

Arguments Normal {A} a.
Arguments Thrown {A} msg.
Arguments Exited {A} code.

Definition Act (A : Type) : Type := Trace * Completion A.

Definition ret {A} (a : A) : Act A := ([], Normal a).

Definition bind {A B} (m : Act A) (k : A -> Act B) : Act B :=
  match m with
  | (t, Normal a) => let '(t', r) := k a in (t ++ t', r)
  | (t, Thrown msg) => (t, Thrown msg)
  | (t, Exited code) => (t, Exited code)
  end.

Declare Scope act_scope.
Delimit Scope act_scope with act.
Notation "'let*' x ':=' m 'in' k" := (bind m (fun x => k))
  (at level 10, x name, m at level 100, k at level 200) : act_scope.
Notation "m ;; k" := (bind m (fun _ => k))
  (at level 100, k at level 200, right associativity) : act_scope.
Open Scope act_scope.

Definition emit (e : Event) : Act unit := ([e], Normal tt).

(** [throw new Error(msg)]. *)
Definition throw {A} (msg : string) : Act A := ([], Thrown msg).

(** [process.exit(code)]: nothing of the script runs afterwards, neither a
    [catch] nor a [finally]. *)
Definition exit {A} (code : Z) : Act A := ([Exit code], Exited code).

(** [try { body } catch (e) { handler(e.message) }]. *)
Definition try_catch {A} (body : Act A) (handler : string -> Act A) : Act A :=
  match body with
  | (t, Thrown msg) => let '(t', r) := handler msg in (t ++ t', r)
  | (t, r) => (t, r)
  end.

(** [try { body } finally { final }]: [final] runs after a normal and
    after an abrupt completion of [body], and its own abrupt completion
    replaces that of [body]. *)
Definition try_finally {A} (body : Act A) (final : Act unit) : Act A :=
  match body with
  | (t, Exited code) => (t, Exited code)
  | (t, r) =>
      let '(t', r') := final in
      (t ++ t',
       match r' with
       | Normal _ => r
       | Thrown msg => Thrown msg
       | Exited code => Exited code
       end)
  end.

(** [xs.forEach(f)] and [for (const x of xs)] over a list of names, with
    the variables the body assigns to threaded as [s]. *)
Fixpoint forEach {S} (xs : list string) (body : string -> S -> Act S) (s : S)
  : Act S :=
  match xs with
  | [] => ret s
  | x :: xs' => let* s' := body x s in forEach xs' body s'
  end.

Definition trace {A} (m : Act A) : Trace := fst m.
Definition completion {A} (m : Act A) : Completion A := snd m.

(** The exit code of a run, when it ended in [process.exit]. *)
Definition exitCode {A} (m : Act A) : option Z :=
  match completion m with
  | Exited code => Some code
  | _ => None
  end.

(* ===================================================================== *)
(** ** The outside world *)
(* ===================================================================== *)

(** A result row: an object with string-valued columns. *)
Abbreviation Row := (gmap string string).

(** What the outside world answers while one data source is checked.
    [inl msg] is a rejection (or, for the command, a non-zero exit) whose
    error carries [msg]. Constructing a client, writing to the console and
    [$disconnect] are taken not to fail. *)
Record Responses := {
  connected : option string;          (* [None]: [$connect] resolves *)
  versionRows : string + list Row;    (* answer to the version query *)
  migrationRows : string + list Row;  (* answer to the v1 migrations query *)
  migrateDeploy : string + string     (* output of the migration command *)
}.

(** The process environment after [dotenv] has run. *)
Abbreviation Env := (gmap string string).

(** The answers of the world, per data source being checked (keyed by the
    name of its environment variable). *)
Definition World := string -> Responses.

Definition success (msg : string) : Act unit := emit (Log Tick msg).
Definition error (msg : string) : Act unit := emit (Log Cross msg).

Definition prisma_connect (w : Responses) (url : Js.value) : Act unit :=
  emit (Connect url);;
  match connected w with
  | None => ret tt
  | Some msg => throw msg
  end.

Definition prisma_queryRaw (url : Js.value) (sql : string)
  (answer : string + list Row) : Act (list Row) :=
  emit (Query url sql);;
  match answer with
  | inr rows => ret rows
  | inl msg => throw msg
  end.

Definition prisma_disconnect (url : Js.value) : Act unit :=
  emit (Disconnect url).

Definition execSync (cmd : string) (answer : string + string) : Act string :=
  emit (Exec cmd);;
  match answer with
  | inr out => ret out
  | inl msg => throw msg
  end.

(** The message of the [TypeError] raised by [queryResult[0].version]
    when the result has no row. *)
Definition noRowMessage : string :=
  "Cannot read properties of undefined (reading 'version')".

(** [rows[0].column]. *)
Definition firstRowColumn (rows : list Row) (column : string) : Act Js.value :=
  match rows !! 0%nat with
  | Some row => ret (row !! column)
  | None => throw noRowMessage
  end.

(* ===================================================================== *)
(** ** The script *)
(* ===================================================================== *)

(** Line 9. *)
Definition DATABASE_URLS : list string := ["DATABASE_URL"; "DIRECT_DATABASE_URL"].

(** Lines 11-14: the guard that runs before anything else. *)
Definition skipGuard (env : Env) : Act unit :=
  if Js.truthy (env !! "SKIP_DB_CHECK") then
    emit (Log Plain "Skipping database check.");;
    exit 0
  else ret tt.

(** [`[${label}] ${msg}`]. *)
Definition tagged (label msg : string) : string := "[" +:+ label +:+ "] " +:+ msg.

(** The message of the error thrown on line 49. *)
Definition missingMessage : string :=
  "One or more required database environment variables are missing.".

(** Lines 37-51. The callback assigns to [allDefined], which is threaded
    through the iteration. *)
Definition checkEnv (env : Env) : Act unit :=
  let* allDefined :=
    forEach DATABASE_URLS (fun envVar allDefined =>
      if negb (Js.truthy (env !! envVar)) then
        error (envVar +:+ " is not defined.");;
        ret false
      else
        success (envVar +:+ " is defined.");;
        ret allDefined) true in
  if negb allDefined then throw missingMessage
  else ret tt.

(** Line 74. The two minimum versions are written as their normalized
    versions; their texts are ['9.4.0'] and ['5.7.0']. *)
Definition minVersion (databaseType : Js.value) : Semver.t :=
  if decide (databaseType = Some "postgresql") then Semver.mk 9 4 0
  else Semver.mk 5 7 0.

Definition versionQuery : string := "SELECT version()".
Definition migrationsQuery : string :=
  "SELECT * FROM _prisma_migrations WHERE started_at < '2023-04-17'".
Definition migrateCommand : string := "npx prisma migrate deploy".

(** The texts of lines 66, 77, 82, 86, 92, 94, 96 and 101, without the
    [[label]] tag they all start with. *)
Definition connectedMessage : string := "Database connection successful.".
Definition unparseableMessage : string := "Unable to parse database version.".
Definition incompatibleMessage (databaseType : Js.value) (minVersion : Semver.t)
  : string :=
  "Database version is not compatible. Please upgrade "
  +:+ Js.interp databaseType +:+ " to version "
  +:+ Semver.format minVersion +:+ " or greater.".
Definition compatibleMessage (version : Semver.t) : string :=
  "Database version (" +:+ Semver.format version +:+ ") is compatible.".
Definition v1GuideMessage : string :=
  "Umami v1 tables detected. To upgrade from v1 to v2, visit https://umami.is/docs/migrate-v1-v2.".
Definition v1Message : string := "Umami v1 tables detected.".
Definition noV1Message : string := "No Umami v1 tables detected.".
Definition upToDateMessage : string := "Database is up to date.".

(** The text of line 121. *)
Definition allPassedMessage : string := "All database checks passed successfully.".

Section Script.

(** [semver.valid(semver.coerce(s))] on a string [s], from the package. *)
Variable coerce : string -> option Semver.t.

(** [semver.valid(semver.coerce(v))]: a value that is not a string gives
    [null]. *)
Definition validCoerce (v : Js.value) : option Semver.t :=
  match v with
  | Some s => coerce s
  | None => None
  end.

(** Lines 68-86 of [performChecks]: the version gate. *)
Definition checkDatabaseVersion (w : Responses) (dbUrl : Js.value)
  (label : string) : Act unit :=
  let* queryResult := prisma_queryRaw dbUrl versionQuery (versionRows w) in
  let* versionString := firstRowColumn queryResult "version" in
  let version := validCoerce versionString in
  let databaseType := getDatabaseType dbUrl in
  let minVersion := minVersion databaseType in
  match version with
  | None => throw (tagged label unparseableMessage)
  | Some version =>
      if Semver.lt version minVersion then
        throw (tagged label (incompatibleMessage databaseType minVersion))
      else
        success (tagged label (compatibleMessage version))
  end.

(** Lines 88-97 of [performChecks]: the v1 migrations guard. *)
Definition checkV1Tables (w : Responses) (dbUrl : Js.value) (label : string)
  : Act unit :=
  let* migrations := prisma_queryRaw dbUrl migrationsQuery (migrationRows w) in
  if (0 <? length migrations)%nat then
    error (tagged label v1GuideMessage);;
    throw (tagged label v1Message)
  else
    success (tagged label noV1Message).

(** Lines 99-101 of [performChecks]: the migration command. *)
Definition applyMigration (w : Responses) (label : string) : Act unit :=
  let* out := execSync migrateCommand (migrateDeploy w) in
  emit (Log Plain out);;
  success (tagged label upToDateMessage).

(** Lines 54-107. *)
Definition performChecks (w : Responses) (dbUrl : Js.value) (label : string)
  : Act unit :=
  try_finally
    (try_catch
       (prisma_connect w dbUrl;;
        success (tagged label connectedMessage);;
        checkDatabaseVersion w dbUrl label;;
        checkV1Tables w dbUrl label;;
        applyMigration w label)
       (fun message => throw (tagged label message)))
    (prisma_disconnect dbUrl).

(** Lines 109-127: the body of the asynchronous function that is called
    at once. *)
Definition main (env : Env) (world : World) : Act unit :=
  try_catch
    (checkEnv env;;
     forEach DATABASE_URLS (fun envVar _ =>
       let dbUrl := env !! envVar in
       let label := envVar in
       performChecks (world envVar) dbUrl label) tt;;
     emit (Log Blue allPassedMessage);;
     exit 0)
    (fun message =>
       error message;;
       exit 1).

(** The whole script: the guard, then the function. *)
Definition script (env : Env) (world : World) : Act unit :=
  skipGuard env;;
  main env world.

End Script.

Arguments Semver.lt : simpl never.
Arguments Semver.format : simpl never.
Arguments getDatabaseType : simpl never.
Arguments minVersion : simpl never.

(* ===================================================================== *)
(** ** Observations on traces *)
(* ===================================================================== *)

(** The external commands of a trace, in order. *)
Fixpoint execs (t : Trace) : list string :=
  match t with
  | Exec cmd :: t' => cmd :: execs t'
  | _ :: t' => execs t'
  | [] => []
  end.

(** The URLs of the connection attempts of a trace, in order. *)
Fixpoint connects (t : Trace) : list Js.value :=
  match t with
  | Connect url :: t' => url :: connects t'
  | _ :: t' => connects t'
  | [] => []
  end.

(** The red cross lines of a trace, in order. *)
Fixpoint crossLines (t : Trace) : list string :=
  match t with
  | Log Cross msg :: t' => msg :: crossLines t'
  | _ :: t' => crossLines t'
  | [] => []
  end.

(** The connection discipline, as an automaton over the trace. The state
    is the client that currently holds a connection, if any. A client may
    connect only when none is held, queries go to the holder, a
    disconnect is the holder's, and the process exits only when none is
    held. [None] is a violation. *)
Definition holderStep (held : option Js.value) (e : Event)
  : option (option Js.value) :=
  match e, held with
  | Connect url, None => Some (Some url)
  | Connect _, Some _ => None
  | Query url _, Some url' => if decide (url = url') then Some held else None
  | Query _ _, None => None
  | Disconnect url, Some url' => if decide (url = url') then Some None else None
  | Disconnect _, None => None
  | Exit _, Some _ => None
  | _, _ => Some held
  end.

Fixpoint holder (held : option Js.value) (t : Trace) : option (option Js.value) :=
  match t with
  | [] => Some held
  | e :: t' =>
      match holderStep held e with
      | Some held' => holder held' t'
      | None => None
      end
  end.

(** Every connection of the trace is released before the next one is
    acquired and before the process exits, and none is left at the end. *)
Definition released (t : Trace) : Prop := holder None t = Some None.

(** The status line that [checkEnv] prints for one variable. *)
Definition envLine (env : Env) (envVar : string) : Event :=
  if Js.truthy (env !! envVar) then Log Tick (envVar +:+ " is defined.")
  else Log Cross (envVar +:+ " is not defined.").

(** What [checkEnv] prints. *)
Definition envLines (env : Env) : Trace := map (envLine env) DATABASE_URLS.

(** The variables of [names] that are unset or empty. *)
Definition missingOf (env : Env) (names : list string) : list string :=
  List.filter (fun envVar => negb (Js.truthy (env !! envVar))) names.

(** The required variables that are unset or empty, in declared order. *)
Definition missing (env : Env) : list string := missingOf env DATABASE_URLS.

(** One data source passes every step of its check. *)
Definition passes (coerce : string -> option Semver.t) (env : Env)
  (world : World) (envVar : string) : Prop :=
  completion (performChecks coerce (world envVar) (env !! envVar) envVar)
  = Normal tt.

(** The trace of the check of one data source. *)
Definition checkTrace (coerce : string -> option Semver.t) (env : Env)
  (world : World) (envVar : string) : Trace :=
  trace (performChecks coerce (world envVar) (env !! envVar) envVar).

(** Every step of the check of a data source gets a good answer. *)
Definition allStepsPass (coerce : string -> option Semver.t) (w : Responses)
  (dbUrl : Js.value) : Prop :=
  connected w = None /\
  (exists row rows raw v,
      versionRows w = inr (row :: rows) /\ row !! "version" = Some raw /\
      coerce raw = Some v /\
      Semver.lt v (minVersion (getDatabaseType dbUrl)) = false) /\
  migrationRows w = inr [] /\
  (exists out, migrateDeploy w = inr out).

(* ===================================================================== *)
(** ** The runs of the check of one data source *)
(* ===================================================================== *)

(** The nine ways in which [performChecks] runs, by the first answer of
    the world that ends the run: the trace it leaves and how it
    completes. [performChecks_run] below shows that the function follows
    this table. *)
Section Runs.

Variable coerce : string -> option Semver.t.
Variables (w : Responses) (dbUrl : Js.value) (label : string).

(** Up to and including the version query. *)
Definition uptoVersionQuery : Trace :=
  [Connect dbUrl; Log Tick (tagged label connectedMessage);
   Query dbUrl versionQuery].

(** Up to and including the migrations query, for a version that passed. *)
Definition uptoMigrationsQuery (version : Semver.t) : Trace :=
  uptoVersionQuery
  ++ [Log Tick (tagged label (compatibleMessage version));
      Query dbUrl migrationsQuery].

(** Up to and including the migration command. *)
Definition uptoMigrate (version : Semver.t) : Trace :=
  uptoMigrationsQuery version
  ++ [Log Tick (tagged label noV1Message); Exec migrateCommand].

Inductive checkRun : Trace -> Completion unit -> Prop :=
| connect_rejected msg :
    connected w = Some msg ->
    checkRun [Connect dbUrl; Disconnect dbUrl] (Thrown (tagged label msg))
| version_query_rejected msg :
    connected w = None ->
    versionRows w = inl msg ->
    checkRun (uptoVersionQuery ++ [Disconnect dbUrl])
             (Thrown (tagged label msg))
| version_no_row :
    connected w = None ->
    versionRows w = inr [] ->
    checkRun (uptoVersionQuery ++ [Disconnect dbUrl])
             (Thrown (tagged label noRowMessage))
| version_unparseable row rows :
    connected w = None ->
    versionRows w = inr (row :: rows) ->
    validCoerce coerce (row !! "version") = None ->
    checkRun (uptoVersionQuery ++ [Disconnect dbUrl])
             (Thrown (tagged label (tagged label unparseableMessage)))
| version_too_old row rows version :
    connected w = None ->
    versionRows w = inr (row :: rows) ->
    validCoerce coerce (row !! "version") = Some version ->
    Semver.lt version (minVersion (getDatabaseType dbUrl)) = true ->
    checkRun (uptoVersionQuery ++ [Disconnect dbUrl])
             (Thrown (tagged label (tagged label
                (incompatibleMessage (getDatabaseType dbUrl)
                   (minVersion (getDatabaseType dbUrl))))))
| migrations_query_rejected row rows version msg :
    connected w = None ->
    versionRows w = inr (row :: rows) ->
    validCoerce coerce (row !! "version") = Some version ->
    Semver.lt version (minVersion (getDatabaseType dbUrl)) = false ->
    migrationRows w = inl msg ->
    checkRun (uptoMigrationsQuery version ++ [Disconnect dbUrl])
             (Thrown (tagged label msg))
| v1_detected row rows version old olds :
    connected w = None ->
    versionRows w = inr (row :: rows) ->
    validCoerce coerce (row !! "version") = Some version ->
    Semver.lt version (minVersion (getDatabaseType dbUrl)) = false ->
    migrationRows w = inr (old :: olds) ->
    checkRun (uptoMigrationsQuery version
              ++ [Log Cross (tagged label v1GuideMessage); Disconnect dbUrl])
             (Thrown (tagged label (tagged label v1Message)))
| migrate_failed row rows version msg :
    connected w = None ->
    versionRows w = inr (row :: rows) ->
    validCoerce coerce (row !! "version") = Some version ->
    Semver.lt version (minVersion (getDatabaseType dbUrl)) = false ->
    migrationRows w = inr [] ->
    migrateDeploy w = inl msg ->
    checkRun (uptoMigrate version ++ [Disconnect dbUrl])
             (Thrown (tagged label msg))
| all_passed row rows version out :
    connected w = None ->
    versionRows w = inr (row :: rows) ->
    validCoerce coerce (row !! "version") = Some version ->
    Semver.lt version (minVersion (getDatabaseType dbUrl)) = false ->
    migrationRows w = inr [] ->
    migrateDeploy w = inr out ->
    checkRun (uptoMigrate version
              ++ [Log Plain out; Log Tick (tagged label upToDateMessage);
                  Disconnect dbUrl])
             (Normal tt).

End Runs.

(* ===================================================================== *)
(** ** Sample inputs *)
(* ===================================================================== *)

Module Samples.

Definition versionRow (raw : string) : Row := {[ "version" := raw ]}.

(** A server that reports [raw] and is otherwise in order. *)
Definition healthy (raw : string) : Responses :=
  {| connected := None;
     versionRows := inr [versionRow raw];
     migrationRows := inr [];
     migrateDeploy := inr "No pending migrations to apply." |}.

(** A server that still has a v1 migration row. *)
Definition legacy (raw : string) : Responses :=
  {| connected := None;
     versionRows := inr [versionRow raw];
     migrationRows := inr [({[ "migration_name" := "01_init" ]} : Row)];
     migrateDeploy := inr "No pending migrations to apply." |}.

Definition pgUrl : string := "postgresql://umami:secret@db:5432/umami".
Definition pgDirectUrl : string := "postgres://umami:secret@db:5432/umami".
Definition mysqlUrl : string := "mysql://umami:secret@db:3306/umami".

Definition env : Env :=
  <["DATABASE_URL" := pgUrl]> (<["DIRECT_DATABASE_URL" := pgDirectUrl]> ∅).

(** Only the direct URL is set. *)
Definition envNoPrimary : Env := <["DIRECT_DATABASE_URL" := pgDirectUrl]> ∅.

Definition envSkip : Env := <["SKIP_DB_CHECK" := "1"]> envNoPrimary.

(** The first data source is in order, the second reports an old server. *)
Definition secondTooOld : World :=
  fun envVar =>
    if String.eqb envVar "DATABASE_URL" then healthy "PostgreSQL 14.5 (Debian 14.5-1)"
    else healthy "PostgreSQL 8.0.0".

Definition bothHealthy : World := fun _ => healthy "PostgreSQL 14.5 (Debian 14.5-1)".

Definition allLegacy : World := fun _ => legacy "PostgreSQL 14.5 (Debian 14.5-1)".

End Samples.

(* ===================================================================== *)
(** ** Further observations and sample answers *)
(* ===================================================================== *)

(** The statements sent to the database, in order. *)
Fixpoint queries (t : Trace) : list string :=
  match t with
  | Query _ sql :: t' => sql :: queries t'
  | _ :: t' => queries t'
  | [] => []
  end.

(** The console lines of a trace that carry a tick or a cross. *)
Fixpoint statusLines (t : Trace) : list string :=
  match t with
  | Log Tick msg :: t' => msg :: statusLines t'
  | Log Cross msg :: t' => msg :: statusLines t'
  | _ :: t' => statusLines t'
  | [] => []
  end.

Module Answers.

(** A server whose version query names its column [version()]: the row
    has no [version] property. *)
Definition unaliased (raw : string) : Responses :=
  {| connected := None;
     versionRows := inr [({[ "version()" := raw ]} : Row)];
     migrationRows := inr [];
     migrateDeploy := inr "No pending migrations to apply." |}.

(** A server that cannot be reached. *)
Definition unreachable : Responses :=
  {| connected := Some "Can't reach database server at `db`:`5432`";
     versionRows := inr [Samples.versionRow "PostgreSQL 14.5"];
     migrationRows := inr [];
     migrateDeploy := inr "No pending migrations to apply." |}.

(** A server that answers the version query with no row. *)
Definition noVersionRow : Responses :=
  {| connected := None;
     versionRows := inr [];
     migrationRows := inr [];
     migrateDeploy := inr "No pending migrations to apply." |}.


(** Neither required variable is set to a non-empty string, and the skip
    variable is set to the empty string. *)
Definition envEmptySkip : Env :=
  <["SKIP_DB_CHECK" := ""]> (<["DATABASE_URL" := ""]> ∅).

End Answers.

(* ===================================================================== *)
(** ** Strings *)
(* ===================================================================== *)

Lemma split_without_separator sep s :
  Js.has_char sep s = false -> Js.split sep s = [s].
Proof.
  induction s as [|c s IH]; simpl; [reflexivity|].
  intros H. apply orb_false_iff in H as [Hc Hs].
  rewrite Hc, (IH Hs). reflexivity.
Qed.

Lemma split_first_piece sep s rest :
  Js.has_char sep s = false ->
  Js.split sep (s +:+ String sep rest) = s :: Js.split sep rest.
Proof.
  induction s as [|c s IH]; intros H.
  - change (EmptyString +:+ String sep rest) with (String sep rest).
    simpl. rewrite Ascii.eqb_refl. reflexivity.
  - simpl in H. apply orb_false_iff in H as [Hc Hs].
    change (String c s +:+ String sep rest) with (String c (s +:+ String sep rest)).
    simpl. rewrite Hc, (IH Hs). reflexivity.
Qed.

(** Every string has a scheme. *)
Lemma scheme_exists url : exists scheme, is_scheme scheme url.
Proof.
  induction url as [|c url [scheme [Hno Hshape]]].
  - exists EmptyString. split; [reflexivity | left; reflexivity].
  - destruct (Ascii.eqb c ":") eqn:Hc.
    + apply Ascii.eqb_eq in Hc. subst c.
      exists EmptyString. split; [reflexivity|]. right. exists url. reflexivity.
    + exists (String c scheme). split.
      * simpl. rewrite Hc, Hno. reflexivity.
      * destruct Hshape as [-> | [rest ->]]; [left; reflexivity|].
        right. exists rest. reflexivity.
Qed.

Lemma first_piece_of_scheme scheme url :
  is_scheme scheme url -> Js.split ":" url !! 0%nat = Some scheme.
Proof.
  intros [Hno [-> | [rest ->]]].
  - rewrite split_without_separator by exact Hno. reflexivity.
  - change (":" +:+ rest) with (String ":" rest).
    rewrite split_first_piece by exact Hno. reflexivity.
Qed.

Lemma getDatabaseType_of_scheme scheme url :
  is_scheme scheme url ->
  getDatabaseType (Some url)
  = Some (if String.eqb scheme "postgres" then "postgresql" else scheme).
Proof.
  intros Hs. unfold getDatabaseType.
  assert (Htype : (if Js.truthy (Some url)
                   then Js.split ":" url !! 0%nat else Some url) = Some scheme).
  { simpl. destruct (String.eqb_spec url "") as [->|Hne]; simpl.
    - destruct Hs as [Hno [H | [rest H]]].
      + subst scheme. reflexivity.
      + destruct scheme; discriminate H.
    - apply first_piece_of_scheme, Hs. }
  rewrite Htype.
  destruct (String.eqb_spec scheme "postgres") as [->|Hne].
  - rewrite decide_True by reflexivity. reflexivity.
  - rewrite decide_False by congruence. reflexivity.
Qed.

(** C6. For every URL string, [getDatabaseType] returns ["postgresql"]
    when the scheme, the part before the first colon, is ["postgres"],
    and the scheme itself for every other URL. *)
Theorem getDatabaseType_maps_scheme (url scheme : string) :
  is_scheme scheme url ->
  (scheme = "postgres" -> getDatabaseType (Some url) = Some "postgresql") /\
  (scheme <> "postgres" -> getDatabaseType (Some url) = Some scheme).
Proof.
  intros Hs. rewrite (getDatabaseType_of_scheme scheme url Hs).
  split; intros H.
  - subst scheme. reflexivity.
  - destruct (String.eqb_spec scheme "postgres"); [contradiction | reflexivity].
Qed.

Lemma getDatabaseType_maps_scheme_witness :
  is_scheme "postgres" Samples.pgDirectUrl /\
  getDatabaseType (Some Samples.pgDirectUrl) = Some "postgresql" /\
  is_scheme "mysql" Samples.mysqlUrl /\
  getDatabaseType (Some Samples.mysqlUrl) = Some "mysql".
Proof.
  assert (H1 : is_scheme "postgres" Samples.pgDirectUrl).
  { split; [reflexivity|]. right. exists "//umami:secret@db:5432/umami". reflexivity. }
  assert (H2 : is_scheme "mysql" Samples.mysqlUrl).
  { split; [reflexivity|]. right. exists "//umami:secret@db:3306/umami". reflexivity. }
  split; [exact H1|]. split.
  - apply (getDatabaseType_maps_scheme _ _ H1). reflexivity.
  - split; [exact H2|].
    apply (getDatabaseType_maps_scheme _ _ H2). discriminate.
Defined.

(* ===================================================================== *)
(** ** The environment validator *)
(* ===================================================================== *)

Section Validator.

Variable env : Env.

(** The iteration of [checkEnv], over any list of names and from any
    value of [allDefined]. *)
Lemma checkEnv_loop names allDefined :
  forEach names (fun envVar allDefined =>
      if negb (Js.truthy (env !! envVar)) then
        error (envVar +:+ " is not defined.");;
        ret false
      else
        success (envVar +:+ " is defined.");;
        ret allDefined) allDefined
  = (map (envLine env) names,
     Normal (allDefined && forallb (fun envVar => Js.truthy (env !! envVar)) names)).
Proof.
  revert allDefined.
  induction names as [|envVar names IH]; intros allDefined; simpl.
  - rewrite andb_true_r. reflexivity.
  - unfold envLine at 1.
    destruct (Js.truthy (env !! envVar)); simpl; rewrite IH; simpl.
    + reflexivity.
    + rewrite andb_false_r. reflexivity.
Qed.

Lemma forallb_missingOf names :
  forallb (fun envVar => Js.truthy (env !! envVar)) names = true
  <-> missingOf env names = [].
Proof.
  induction names as [|envVar names IH]; simpl; [tauto|].
  destruct (Js.truthy (env !! envVar)); simpl; [exact IH|].
  split; discriminate.
Qed.

Lemma crossLines_envLines names :
  crossLines (map (envLine env) names)
  = map (fun envVar => envVar +:+ " is not defined.") (missingOf env names).
Proof.
  induction names as [|envVar names IH]; simpl; [reflexivity|].
  unfold envLine at 1.
  destruct (Js.truthy (env !! envVar)); simpl; rewrite IH; reflexivity.
Qed.

Lemma connects_envLines names : connects (map (envLine env) names) = [].
Proof.
  induction names as [|envVar names IH]; simpl; [reflexivity|].
  unfold envLine at 1. destruct (Js.truthy (env !! envVar)); exact IH.
Qed.

Lemma holder_envLines held names :
  holder held (map (envLine env) names) = Some held.
Proof.
  induction names as [|envVar names IH]; simpl; [reflexivity|].
  unfold envLine at 1.
  destruct (Js.truthy (env !! envVar)); destruct held; exact IH.
Qed.

Lemma checkEnv_run :
  checkEnv env
  = (map (envLine env) DATABASE_URLS,
     match missing env with
     | [] => Normal tt
     | _ :: _ => Thrown missingMessage
     end).
Proof.
  unfold checkEnv. rewrite checkEnv_loop, andb_true_l.
  pose proof (forallb_missingOf DATABASE_URLS) as Hall.
  fold (missing env) in Hall.
  destruct (forallb _ DATABASE_URLS).
  - rewrite (proj1 Hall eq_refl). unfold bind, ret. simpl negb. cbv iota beta.
    rewrite app_nil_r. reflexivity.
  - destruct (missing env); [destruct Hall as [_ H]; discriminate (H eq_refl)|].
    unfold bind, throw. simpl negb. cbv iota beta.
    rewrite app_nil_r. reflexivity.
Qed.

End Validator.

(* ===================================================================== *)
(** ** The check of one data source *)
(* ===================================================================== *)

Section OneDataSource.

Variable coerce : string -> option Semver.t.
Variables (w : Responses) (dbUrl : Js.value) (label : string).

(** [performChecks] follows the table of runs. *)
Lemma performChecks_run :
  checkRun coerce w dbUrl label
    (trace (performChecks coerce w dbUrl label))
    (completion (performChecks coerce w dbUrl label)).
Proof.
  unfold performChecks, prisma_connect, checkDatabaseVersion, checkV1Tables,
    applyMigration, prisma_queryRaw, firstRowColumn, execSync.
  destruct (connected w) as [cmsg|] eqn:Hc.
  { apply connect_rejected. exact Hc. }
  destruct (versionRows w) as [vmsg|[|row rows]] eqn:Hv.
  { apply version_query_rejected; assumption. }
  { apply version_no_row; assumption. }
  change ((row :: rows) !! 0%nat) with (Some row).
  destruct (validCoerce coerce (row !! "version")) as [version|] eqn:Hver.
  2:{ cbn. rewrite Hver. eapply version_unparseable; eassumption. }
  destruct (Semver.lt version (minVersion (getDatabaseType dbUrl))) eqn:Hlt.
  { cbn. rewrite Hver, Hlt. eapply version_too_old; eassumption. }
  destruct (migrationRows w) as [mmsg|[|old olds]] eqn:Hm.
  { cbn. rewrite Hver, Hlt. eapply migrations_query_rejected; eassumption. }
  2:{ cbn. rewrite Hver, Hlt. eapply v1_detected; eassumption. }
  destruct (migrateDeploy w) as [dmsg|out] eqn:Hd.
  { cbn. rewrite Hver, Hlt. eapply migrate_failed; eassumption. }
  cbn. rewrite Hver, Hlt. eapply all_passed; eassumption.
Qed.

(** Properties that hold of every run of the table. *)
Section RunProperties.

Variables (t : Trace) (r : Completion unit).
Hypothesis Hrun : checkRun coerce w dbUrl label t r.

Ltac each_run :=
  destruct Hrun;
  unfold uptoMigrate, uptoMigrationsQuery, uptoVersionQuery;
  cbn [app holder holderStep execs connects last];
  repeat (rewrite decide_True by reflexivity; cbn [holder holderStep]).

(** A check completes normally or throws an error tagged with its label;
    it never ends the process itself. *)
Lemma checkRun_completion :
  r = Normal tt \/ exists msg, r = Thrown (tagged label msg).
Proof. destruct Hrun; eauto. Qed.

(** The connection is taken first, released last, and nothing else is
    taken or released in between. *)
Lemma checkRun_bracket :
  exists mid,
    t = Connect dbUrl :: mid ++ [Disconnect dbUrl] /\
    holder (Some dbUrl) mid = Some (Some dbUrl).
Proof.
  each_run;
    match goal with
    | |- exists mid, Connect _ :: ?l = _ /\ _ =>
        exists (removelast l)
    end;
    cbn [removelast app holder holderStep];
    repeat (rewrite decide_True by reflexivity; cbn [holder holderStep]);
    split; reflexivity.
Qed.

Lemma checkRun_released : holder None t = Some None.
Proof. each_run; reflexivity. Qed.

Lemma checkRun_connects : connects t = [dbUrl].
Proof. each_run; reflexivity. Qed.

(** At most one command is executed, and it is the migration command. *)
Lemma checkRun_execs :
  (execs t = [] /\ r <> Normal tt) \/ execs t = [migrateCommand].
Proof. each_run; auto; left; (split; [reflexivity | discriminate]). Qed.

Lemma checkRun_passes : r = Normal tt <-> allStepsPass coerce w dbUrl.
Proof.
  unfold allStepsPass. split.
  - destruct Hrun; try discriminate. intros _. unfold validCoerce in *.
    destruct (row !! "version") as [raw|] eqn:Hraw; [|discriminate].
    split; [assumption|]. split; [|split; [assumption | eauto]].
    exists row, rows, raw, version. auto.
  - intros (Hc & (row & rows & raw & v & Hv & Hraw & Hco & Hlt) & Hm & out & Hd).
    destruct Hrun; try congruence;
      match goal with
      | H : versionRows w = inr (_ :: _) |- _ =>
          rewrite Hv in H; injection H as <- <-
      end; rewrite Hraw in *; unfold validCoerce in *; congruence.
Qed.

(** A v1 row ends the run before the migration command. *)
Lemma checkRun_v1 old olds :
  migrationRows w = inr (old :: olds) ->
  (exists msg, r = Thrown (tagged label msg)) /\ execs t = [].
Proof.
  intros Hm. each_run; try congruence; split; eauto.
Qed.

End RunProperties.

End OneDataSource.

(* ===================================================================== *)
(** ** Traces of composed runs *)
(* ===================================================================== *)

Lemma holder_app held t1 t2 :
  holder held (t1 ++ t2)
  = match holder held t1 with
    | Some held' => holder held' t2
    | None => None
    end.
Proof.
  revert held. induction t1 as [|e t1 IH]; intros held; simpl; [reflexivity|].
  destruct (holderStep held e); [apply IH | reflexivity].
Qed.

Lemma connects_app t1 t2 : connects (t1 ++ t2) = connects t1 ++ connects t2.
Proof.
  induction t1 as [|e t1 IH]; simpl; [reflexivity|].
  destruct e; simpl; rewrite IH; reflexivity.
Qed.

Lemma execs_In t cmd : In cmd (execs t) <-> In (Exec cmd) t.
Proof.
  induction t as [|e t IH]; simpl; [tauto|].
  destruct e; simpl; rewrite IH;
    intuition (try discriminate; try congruence).
Qed.

(* ===================================================================== *)
(** ** The orchestrator *)
(* ===================================================================== *)

Section Orchestrator.

Variable coerce : string -> option Semver.t.
Variables (env : Env) (world : World).

Lemma performChecks_pair envVar :
  performChecks coerce (world envVar) (env !! envVar) envVar
  = (checkTrace coerce env world envVar,
     completion (performChecks coerce (world envVar) (env !! envVar) envVar)).
Proof. unfold checkTrace, trace, completion. apply surjective_pairing. Qed.

Lemma check_completion envVar :
  passes coerce env world envVar \/
  exists msg,
    completion (performChecks coerce (world envVar) (env !! envVar) envVar)
    = Thrown (tagged envVar msg).
Proof. apply (checkRun_completion _ _ _ _ _ _ (performChecks_run _ _ _ _)). Qed.

(** The loop over the data sources, over any list of names. *)
Lemma checks_all_pass names :
  Forall (passes coerce env world) names ->
  forEach names (fun envVar _ =>
      performChecks coerce (world envVar) (env !! envVar) envVar) tt
  = (List.concat (map (checkTrace coerce env world) names), Normal tt).
Proof.
  induction 1 as [|envVar names Hpass _ IH]; [reflexivity|].
  cbn [forEach map List.concat].
  rewrite (performChecks_pair envVar), Hpass.
  unfold bind at 1. rewrite IH. reflexivity.
Qed.

Lemma checks_first_failure before envVar after msg :
  Forall (passes coerce env world) before ->
  completion (performChecks coerce (world envVar) (env !! envVar) envVar)
  = Thrown msg ->
  forEach (before ++ envVar :: after) (fun envVar _ =>
      performChecks coerce (world envVar) (env !! envVar) envVar) tt
  = (List.concat (map (checkTrace coerce env world) before)
     ++ checkTrace coerce env world envVar, Thrown msg).
Proof.
  intros Hbefore Hfail.
  induction Hbefore as [|first before Hpass _ IH].
  - cbn [app forEach map List.concat].
    rewrite (performChecks_pair envVar), Hfail. reflexivity.
  - cbn [app forEach map List.concat].
    rewrite (performChecks_pair first), Hpass.
    unfold bind at 1. rewrite IH, <- app_assoc. reflexivity.
Qed.

(** Either every data source passes, or there is a first one that fails,
    and its error is tagged with its label. *)
Lemma pass_or_first_failure names :
  Forall (passes coerce env world) names \/
  exists before envVar after msg,
    names = before ++ envVar :: after /\
    Forall (passes coerce env world) before /\
    completion (performChecks coerce (world envVar) (env !! envVar) envVar)
    = Thrown (tagged envVar msg).
Proof.
  induction names as [|envVar names IH]; [left; constructor|].
  destruct (check_completion envVar) as [Hpass | [msg Hfail]].
  - destruct IH as [Hall | (before & x & after & msg & -> & Hbefore & Hfail)].
    + left. constructor; assumption.
    + right. exists (envVar :: before), x, after, msg.
      split; [reflexivity|]. split; [constructor; assumption | exact Hfail].
  - right. exists [], envVar, names, msg.
    split; [reflexivity|]. split; [constructor | exact Hfail].
Qed.

Lemma main_env_incomplete :
  missing env <> [] ->
  main coerce env world
  = (envLines env ++ [Log Cross missingMessage; Exit 1], Exited 1).
Proof.
  intros Hmissing. unfold main. rewrite checkEnv_run.
  destruct (missing env); [contradiction|]. reflexivity.
Qed.

Lemma main_all_pass :
  missing env = [] ->
  Forall (passes coerce env world) DATABASE_URLS ->
  main coerce env world
  = (envLines env ++ List.concat (map (checkTrace coerce env world) DATABASE_URLS)
     ++ [Log Blue allPassedMessage; Exit 0], Exited 0).
Proof.
  intros Hmissing Hall. unfold main. cbv zeta.
  rewrite checkEnv_run, Hmissing. unfold bind at 1.
  rewrite (checks_all_pass _ Hall). reflexivity.
Qed.

Lemma main_first_failure before envVar after msg :
  missing env = [] ->
  DATABASE_URLS = before ++ envVar :: after ->
  Forall (passes coerce env world) before ->
  completion (performChecks coerce (world envVar) (env !! envVar) envVar)
  = Thrown msg ->
  main coerce env world
  = (envLines env ++ List.concat (map (checkTrace coerce env world) before)
     ++ checkTrace coerce env world envVar ++ [Log Cross msg; Exit 1],
     Exited 1).
Proof.
  intros Hmissing Hsplit Hbefore Hfail. unfold main. cbv zeta.
  rewrite checkEnv_run, Hmissing. fold (envLines env). unfold bind at 1.
  rewrite Hsplit, (checks_first_failure _ _ _ _ Hbefore Hfail).
  cbn [bind try_catch error emit exit app].
  rewrite <- !app_assoc. reflexivity.
Qed.

Lemma script_skipped :
  Js.truthy (env !! "SKIP_DB_CHECK") = true ->
  script coerce env world
  = ([Log Plain "Skipping database check."; Exit 0], Exited 0).
Proof. intros Hskip. unfold script, skipGuard. rewrite Hskip. reflexivity. Qed.

Lemma script_not_skipped :
  Js.truthy (env !! "SKIP_DB_CHECK") = false ->
  script coerce env world = main coerce env world.
Proof.
  intros Hskip. unfold script, skipGuard. rewrite Hskip.
  destruct (main coerce env world) as [t r]. reflexivity.
Qed.

Lemma holder_checks names :
  holder None (List.concat (map (checkTrace coerce env world) names)) = Some None.
Proof.
  induction names as [|envVar names IH]; [reflexivity|].
  cbn [map List.concat]. rewrite holder_app.
  unfold checkTrace at 1.
  rewrite (checkRun_released _ _ _ _ _ _ (performChecks_run _ _ _ _)).
  exact IH.
Qed.

(** How the script ends. *)
Lemma script_exitCode :
  (exitCode (script coerce env world) = Some 0%Z \/
   exitCode (script coerce env world) = Some 1%Z) /\
  (exitCode (script coerce env world) = Some 0%Z <->
   Js.truthy (env !! "SKIP_DB_CHECK") = true \/
   (missing env = [] /\ Forall (passes coerce env world) DATABASE_URLS)).
Proof.
  destruct (Js.truthy (env !! "SKIP_DB_CHECK")) eqn:Hskip.
  { rewrite (script_skipped Hskip). cbn. tauto. }
  rewrite (script_not_skipped Hskip).
  destruct (missing env) as [|name names] eqn:Hmissing.
  2:{ rewrite main_env_incomplete by (rewrite Hmissing; discriminate).
      cbn. split; [tauto|]. split; [discriminate|].
      intros [H | [H _]]; discriminate. }
  destruct (pass_or_first_failure DATABASE_URLS)
    as [Hall | (before & x & after & msg & Hsplit & Hbefore & Hfail)].
  - rewrite (main_all_pass Hmissing Hall). cbn. tauto.
  - rewrite (main_first_failure _ _ _ _ Hmissing Hsplit Hbefore Hfail).
    cbn. split; [tauto|]. split; [discriminate|].
    intros [H | [_ Hall]]; [discriminate|].
    rewrite Hsplit in Hall. apply Forall_app in Hall as [_ Hall].
    inversion Hall as [|? ? Hx _]. unfold passes in Hx. congruence.
Qed.

Lemma script_released : released (trace (script coerce env world)).
Proof.
  unfold released.
  destruct (Js.truthy (env !! "SKIP_DB_CHECK")) eqn:Hskip.
  { rewrite (script_skipped Hskip). reflexivity. }
  rewrite (script_not_skipped Hskip).
  destruct (missing env) as [|name names] eqn:Hmissing.
  2:{ rewrite main_env_incomplete by (rewrite Hmissing; discriminate).
      cbn [trace fst]. rewrite holder_app. unfold envLines.
      rewrite holder_envLines. reflexivity. }
  destruct (pass_or_first_failure DATABASE_URLS)
    as [Hall | (before & x & after & msg & Hsplit & Hbefore & Hfail)].
  - rewrite (main_all_pass Hmissing Hall). cbn [trace fst].
    rewrite holder_app. unfold envLines. rewrite holder_envLines.
    cbv beta iota. rewrite holder_app, holder_checks. reflexivity.
  - rewrite (main_first_failure _ _ _ _ Hmissing Hsplit Hbefore Hfail).
    cbn [trace fst]. rewrite holder_app. unfold envLines.
    rewrite holder_envLines. cbv beta iota.
    rewrite holder_app, holder_checks. cbv beta iota.
    rewrite holder_app. unfold checkTrace.
    rewrite (checkRun_released _ _ _ _ _ _ (performChecks_run _ _ _ _)).
    reflexivity.
Qed.

End Orchestrator.

(* ===================================================================== *)
(** ** The version gate *)
(* ===================================================================== *)

Lemma lt_precedes a b : Semver.lt a b = true <-> Semver.precedes a b.
Proof.
  unfold Semver.lt, Semver.compare, Semver.compareIdentifiers, Semver.precedes.
  destruct (N.compare_spec (Semver.major a) (Semver.major b));
    destruct (N.compare_spec (Semver.minor a) (Semver.minor b));
    destruct (N.compare_spec (Semver.patch a) (Semver.patch b));
    split; intros; try discriminate; try reflexivity; try lia.
Qed.

Lemma minVersion_family databaseType :
  (databaseType = Some "postgresql" -> minVersion databaseType = Semver.mk 9 4 0) /\
  (databaseType <> Some "postgresql" -> minVersion databaseType = Semver.mk 5 7 0).
Proof.
  unfold minVersion. split; intros H.
  - rewrite decide_True by exact H. reflexivity.
  - rewrite decide_False by exact H. reflexivity.
Qed.

Section VersionGate.

Variable coerce : string -> option Semver.t.
Variables (w : Responses) (dbUrl : Js.value) (label : string).
Variables (row : Row) (rows : list Row).
Hypothesis Hrows : versionRows w = inr (row :: rows).

(** The gate, once the query has returned a row. *)
Lemma gate_run :
  checkDatabaseVersion coerce w dbUrl label
  = match validCoerce coerce (row !! "version") with
    | None =>
        ([Query dbUrl versionQuery], Thrown (tagged label unparseableMessage))
    | Some version =>
        if Semver.lt version (minVersion (getDatabaseType dbUrl)) then
          ([Query dbUrl versionQuery],
           Thrown (tagged label
                     (incompatibleMessage (getDatabaseType dbUrl)
                        (minVersion (getDatabaseType dbUrl)))))
        else
          ([Query dbUrl versionQuery;
            Log Tick (tagged label (compatibleMessage version))], Normal tt)
    end.
Proof.
  unfold checkDatabaseVersion, prisma_queryRaw, firstRowColumn.
  rewrite Hrows. cbn [bind emit ret app].
  change ((row :: rows) !! 0%nat) with (Some row). cbn [bind ret app].
  destruct (validCoerce coerce (row !! "version")) as [version|];
    [|reflexivity].
  destruct (Semver.lt version (minVersion (getDatabaseType dbUrl)));
    reflexivity.
Qed.

End VersionGate.

(** A gate that throws ends the check of the data source before the
    migration command. *)
Lemma gate_failure_stops_check coerce w dbUrl label :
  (exists msg,
      completion (checkDatabaseVersion coerce w dbUrl label) = Thrown msg) ->
  (exists msg,
      completion (performChecks coerce w dbUrl label) = Thrown (tagged label msg))
  /\ execs (trace (performChecks coerce w dbUrl label)) = [].
Proof.
  intros [gmsg Hgate].
  destruct (performChecks_run coerce w dbUrl label);
    unfold uptoMigrate, uptoMigrationsQuery, uptoVersionQuery;
    cbn [app execs];
    try (split; [eauto | reflexivity]);
    match goal with
    | Hv : versionRows w = inr (_ :: _),
      Hver : validCoerce _ _ = Some _, Hlt : Semver.lt _ _ = false |- _ =>
        rewrite (gate_run coerce w dbUrl label _ _ Hv), Hver, Hlt in Hgate;
        discriminate Hgate
    end.
Qed.

(* ===================================================================== *)
(** ** Texts *)
(* ===================================================================== *)

Lemma prefix_app part post : String.prefix part (part +:+ post) = true.
Proof.
  induction part as [|c part IH]; [destruct post; reflexivity|].
  change (String c part +:+ post) with (String c (part +:+ post)).
  simpl. destruct (ascii_dec c c); [exact IH | contradiction].
Qed.

Lemma includes_unfold msg part :
  Js.includes msg part
  = String.prefix part msg
    || match msg with
       | EmptyString => false
       | String _ msg' => Js.includes msg' part
       end.
Proof. destruct msg; reflexivity. Qed.

Lemma includes_here part post : Js.includes (part +:+ post) part = true.
Proof. rewrite includes_unfold, (prefix_app part post). reflexivity. Qed.

Lemma includes_app pre part post :
  Js.includes (pre +:+ part +:+ post) part = true.
Proof.
  induction pre as [|c pre IH]; [exact (includes_here part post)|].
  change (String c pre +:+ part +:+ post) with (String c (pre +:+ part +:+ post)).
  rewrite includes_unfold, IH. apply orb_true_r.
Qed.

Lemma includes_skip pre msg part :
  Js.includes msg part = true -> Js.includes (pre +:+ msg) part = true.
Proof.
  intros H. induction pre as [|c pre IH]; [exact H|].
  change (String c pre +:+ msg) with (String c (pre +:+ msg)).
  rewrite includes_unfold, IH. apply orb_true_r.
Qed.

(* ===================================================================== *)
(** ** Properties of the version gate *)
(* ===================================================================== *)

(** C1. For every data source whose server reports a version that
    normalizes to [version], the gate throws exactly when [version]
    precedes the minimum of the family in the major.minor.patch order,
    and completes normally otherwise. The minimum is 9.4.0 for the
    family [postgresql] and 5.7.0 for every other family. In particular
    8.0.0 is below and 9.4.0 is not below the [postgresql] minimum, and
    5.6.9 is below the minimum of another family. *)
Theorem version_gate_fails_iff_below_minimum
  (coerce : string -> option Semver.t) (w : Responses) (dbUrl : Js.value)
  (label : string) (row : Row) (rows : list Row) (raw : string)
  (version : Semver.t) :
  versionRows w = inr (row :: rows) ->
  row !! "version" = Some raw ->
  coerce raw = Some version ->
  let family := getDatabaseType dbUrl in
  let gate := checkDatabaseVersion coerce w dbUrl label in
  (family = Some "postgresql" -> minVersion family = Semver.mk 9 4 0) /\
  (family <> Some "postgresql" -> minVersion family = Semver.mk 5 7 0) /\
  ((exists msg, completion gate = Thrown msg)
   <-> Semver.precedes version (minVersion family)) /\
  (completion gate = Normal tt
   <-> ~ Semver.precedes version (minVersion family)) /\
  Semver.lt (Semver.mk 8 0 0) (minVersion (Some "postgresql")) = true /\
  Semver.lt (Semver.mk 9 4 0) (minVersion (Some "postgresql")) = false /\
  Semver.lt (Semver.mk 5 6 9) (minVersion (Some "mysql")) = true.
Proof.
  intros Hrows Hraw Hcoerce family gate.
  split; [apply minVersion_family|]. split; [apply minVersion_family|].
  assert (Hgate : gate
    = if Semver.lt version (minVersion family) then
        ([Query dbUrl versionQuery],
         Thrown (tagged label (incompatibleMessage family (minVersion family))))
      else
        ([Query dbUrl versionQuery;
          Log Tick (tagged label (compatibleMessage version))], Normal tt)).
  { unfold gate. rewrite (gate_run coerce w dbUrl label row rows Hrows), Hraw.
    unfold validCoerce. rewrite Hcoerce. reflexivity. }
  rewrite Hgate, <- lt_precedes.
  destruct (Semver.lt version (minVersion family)); cbn [completion snd].
  - repeat split; try reflexivity; eauto; try discriminate.
    intros H. exfalso. apply H. reflexivity.
  - repeat split; try reflexivity; try discriminate.
    intros [msg H]. discriminate H.
Qed.

Lemma version_gate_fails_iff_below_minimum_witness :
  (exists msg,
      completion (checkDatabaseVersion Semver.coerce
                    (Samples.healthy "PostgreSQL 8.0.0")
                    (Some Samples.pgDirectUrl) "DIRECT_DATABASE_URL")
      = Thrown msg) /\
  completion (checkDatabaseVersion Semver.coerce
                (Samples.healthy "PostgreSQL 9.4.0")
                (Some Samples.pgUrl) "DATABASE_URL") = Normal tt /\
  (exists msg,
      completion (checkDatabaseVersion Semver.coerce
                    (Samples.healthy "5.6.9-log")
                    (Some Samples.mysqlUrl) "DATABASE_URL")
      = Thrown msg).
Proof.
  split; [|split].
  - apply (version_gate_fails_iff_below_minimum Semver.coerce
             (Samples.healthy "PostgreSQL 8.0.0") (Some Samples.pgDirectUrl)
             "DIRECT_DATABASE_URL" (Samples.versionRow "PostgreSQL 8.0.0") []
             "PostgreSQL 8.0.0" (Semver.mk 8 0 0));
      [reflexivity | reflexivity | reflexivity |].
    left. vm_compute. reflexivity.
  - apply (version_gate_fails_iff_below_minimum Semver.coerce
             (Samples.healthy "PostgreSQL 9.4.0") (Some Samples.pgUrl)
             "DATABASE_URL" (Samples.versionRow "PostgreSQL 9.4.0") []
             "PostgreSQL 9.4.0" (Semver.mk 9 4 0));
      [reflexivity | reflexivity | reflexivity |].
    vm_compute. intros [H | [_ [H | [_ H]]]]; discriminate H.
  - apply (version_gate_fails_iff_below_minimum Semver.coerce
             (Samples.healthy "5.6.9-log") (Some Samples.mysqlUrl)
             "DATABASE_URL" (Samples.versionRow "5.6.9-log") []
             "5.6.9-log" (Semver.mk 5 6 9));
      [reflexivity | reflexivity | reflexivity |].
    right. split; [reflexivity|]. left. vm_compute. reflexivity.
Defined.

(** C7. For every raw version string from which no version can be
    extracted, the gate throws the unparseable-version error, and the
    check of that data source fails without reaching the migration
    command. *)
Theorem version_gate_rejects_unparseable
  (coerce : string -> option Semver.t) (w : Responses) (dbUrl : Js.value)
  (label : string) (row : Row) (rows : list Row) (raw : string) :
  versionRows w = inr (row :: rows) ->
  row !! "version" = Some raw ->
  coerce raw = None ->
  completion (checkDatabaseVersion coerce w dbUrl label)
  = Thrown (tagged label "Unable to parse database version.") /\
  (exists msg,
      completion (performChecks coerce w dbUrl label)
      = Thrown (tagged label msg)) /\
  execs (trace (performChecks coerce w dbUrl label)) = [].
Proof.
  intros Hrows Hraw Hcoerce.
  assert (Hgate : completion (checkDatabaseVersion coerce w dbUrl label)
                  = Thrown (tagged label unparseableMessage)).
  { rewrite (gate_run coerce w dbUrl label row rows Hrows), Hraw.
    unfold validCoerce. rewrite Hcoerce. reflexivity. }
  split; [exact Hgate|].
  apply gate_failure_stops_check. eauto.
Qed.

Lemma version_gate_rejects_unparseable_witness :
  Semver.coerce "" = None /\
  completion (checkDatabaseVersion Semver.coerce (Samples.healthy "")
                (Some Samples.pgUrl) "DATABASE_URL")
  = Thrown "[DATABASE_URL] Unable to parse database version." /\
  execs (trace (performChecks Semver.coerce (Samples.healthy "")
                  (Some Samples.pgUrl) "DATABASE_URL")) = [].
Proof.
  split; [reflexivity|].
  destruct (version_gate_rejects_unparseable Semver.coerce (Samples.healthy "")
              (Some Samples.pgUrl) "DATABASE_URL" (Samples.versionRow "") [] "")
    as (Hgate & _ & Hexecs); [reflexivity | reflexivity | reflexivity |].
  split; [exact Hgate | exact Hexecs].
Defined.

(** C8, as stated, fails: the error of a version below the minimum does
    not carry the version that the server reported. A PostgreSQL server
    that reports 8.0.0 and one that reports 9.3.0 give the same error,
    and its text contains neither the reported string nor its normalized
    form. *)
Lemma incompatible_error_omits_reported_version :
  let gate raw :=
    checkDatabaseVersion Semver.coerce (Samples.healthy raw)
      (Some Samples.pgUrl) "DATABASE_URL" in
  let msg :=
    "[DATABASE_URL] Database version is not compatible. Please upgrade postgresql to version 9.4.0 or greater." in
  Semver.coerce "PostgreSQL 8.0.0" = Some (Semver.mk 8 0 0) /\
  Semver.lt (Semver.mk 8 0 0) (minVersion (getDatabaseType (Some Samples.pgUrl)))
  = true /\
  completion (gate "PostgreSQL 8.0.0") = Thrown msg /\
  Js.includes msg "PostgreSQL 8.0.0" = false /\
  Js.includes msg (Semver.format (Semver.mk 8 0 0)) = false /\
  completion (gate "PostgreSQL 9.3.0") = Thrown msg.
Proof. vm_compute. repeat split; reflexivity. Qed.

(** C8, amended. Whenever the gate fails because the normalized version
    is below the minimum of the family, the error is the text of line 82
    tagged with the label: it carries the label, the family and the
    minimum version, and it is the same whatever version was reported. *)
Theorem incompatible_error_carries_family_and_minimum
  (coerce : string -> option Semver.t) (w : Responses) (dbUrl : Js.value)
  (label : string) (row : Row) (rows : list Row) (raw : string)
  (version : Semver.t) :
  versionRows w = inr (row :: rows) ->
  row !! "version" = Some raw ->
  coerce raw = Some version ->
  Semver.lt version (minVersion (getDatabaseType dbUrl)) = true ->
  let family := Js.interp (getDatabaseType dbUrl) in
  let minimum := Semver.format (minVersion (getDatabaseType dbUrl)) in
  let msg :=
    "[" +:+ label +:+ "] Database version is not compatible. Please upgrade "
    +:+ family +:+ " to version " +:+ minimum +:+ " or greater." in
  completion (checkDatabaseVersion coerce w dbUrl label) = Thrown msg /\
  Js.includes msg label = true /\
  Js.includes msg family = true /\
  Js.includes msg minimum = true.
Proof.
  intros Hrows Hraw Hcoerce Hlt family minimum msg. split.
  - rewrite (gate_run coerce w dbUrl label row rows Hrows), Hraw.
    unfold validCoerce. rewrite Hcoerce, Hlt. reflexivity.
  - unfold msg. split; [|split].
    + apply (includes_app "[" label).
    + apply (includes_skip "["), (includes_skip label).
      apply (includes_app
               "] Database version is not compatible. Please upgrade " family).
    + apply (includes_skip "["), (includes_skip label).
      apply (includes_skip
               "] Database version is not compatible. Please upgrade ").
      apply (includes_skip family).
      apply (includes_app " to version " minimum).
Qed.

Lemma incompatible_error_carries_family_and_minimum_witness :
  completion (checkDatabaseVersion Semver.coerce
                (Samples.healthy "5.6.9-log") (Some Samples.mysqlUrl)
                "DATABASE_URL")
  = Thrown "[DATABASE_URL] Database version is not compatible. Please upgrade mysql to version 5.7.0 or greater.".
Proof.
  apply (incompatible_error_carries_family_and_minimum Semver.coerce
           (Samples.healthy "5.6.9-log") (Some Samples.mysqlUrl) "DATABASE_URL"
           (Samples.versionRow "5.6.9-log") [] "5.6.9-log" (Semver.mk 5 6 9));
    reflexivity.
Defined.

(* ===================================================================== *)
(** ** Properties of the run *)
(* ===================================================================== *)

(** C4. Let [S] be the required variables that are unset or empty. The
    validator prints one line per required variable, the red lines are
    the lines of exactly the names in [S], in declared order, and it
    completes normally only when [S] is empty. When [S] is not empty,
    the function that drives the run prints the error and exits with
    code 1 without a single connection attempt, and that function is the
    whole of a run that the skip guard lets through. *)
Theorem validator_reports_exactly_the_missing
  (coerce : string -> option Semver.t) (env : Env) (world : World)
  (S : list string) :
  missing env = S ->
  trace (checkEnv env) = map (envLine env) DATABASE_URLS /\
  crossLines (trace (checkEnv env))
  = map (fun name => name +:+ " is not defined.") S /\
  (completion (checkEnv env) = Normal tt <-> S = []) /\
  (S <> [] ->
   main coerce env world
   = (trace (checkEnv env)
      ++ [Log Cross
            "One or more required database environment variables are missing.";
          Exit 1], Exited 1) /\
   exitCode (main coerce env world) = Some 1%Z /\
   connects (trace (main coerce env world)) = [] /\
   (Js.truthy (env !! "SKIP_DB_CHECK") = false ->
    script coerce env world = main coerce env world)).
Proof.
  intros <-. rewrite checkEnv_run. cbn [trace completion fst snd].
  split; [reflexivity|]. split; [apply crossLines_envLines|]. split.
  - destruct (missing env); split; intros H; try reflexivity; discriminate H.
  - intros Hmissing. rewrite (main_env_incomplete coerce env world Hmissing).
    split; [reflexivity|]. split; [reflexivity|]. split.
    + cbn [trace fst]. rewrite connects_app. unfold envLines.
      rewrite connects_envLines. reflexivity.
    + intros Hskip. rewrite (script_not_skipped coerce env world Hskip).
      rewrite (main_env_incomplete coerce env world Hmissing). reflexivity.
Qed.

Lemma validator_reports_exactly_the_missing_witness :
  missing Samples.envNoPrimary = ["DATABASE_URL"] /\
  crossLines (trace (checkEnv Samples.envNoPrimary))
  = ["DATABASE_URL is not defined."] /\
  exitCode (main Semver.coerce Samples.envNoPrimary Samples.bothHealthy)
  = Some 1%Z.
Proof.
  destruct (validator_reports_exactly_the_missing Semver.coerce
              Samples.envNoPrimary Samples.bothHealthy ["DATABASE_URL"])
    as (_ & Hlines & _ & Hrun); [vm_compute; reflexivity|].
  split; [vm_compute; reflexivity|]. split; [exact Hlines|].
  apply Hrun. discriminate.
Defined.

(** C5. Whatever the rest of the environment, when the skip variable is
    set to a non-empty string the script prints the notice and exits
    with code 0: nothing is validated and no connection is attempted. *)
Theorem skip_exits_before_anything_else
  (coerce : string -> option Semver.t) (env : Env) (world : World)
  (value : string) :
  env !! "SKIP_DB_CHECK" = Some value ->
  value <> "" ->
  script coerce env world
  = ([Log Plain "Skipping database check."; Exit 0], Exited 0) /\
  exitCode (script coerce env world) = Some 0%Z /\
  connects (trace (script coerce env world)) = [] /\
  crossLines (trace (script coerce env world)) = [].
Proof.
  intros Hset Hvalue.
  assert (Hskip : Js.truthy (env !! "SKIP_DB_CHECK") = true).
  { rewrite Hset. simpl. destruct (String.eqb_spec value ""); [contradiction|].
    reflexivity. }
  rewrite (script_skipped coerce env world Hskip). repeat split.
Qed.

Lemma skip_exits_before_anything_else_witness :
  Samples.envSkip !! "SKIP_DB_CHECK" = Some "1" /\
  missing Samples.envSkip = ["DATABASE_URL"] /\
  exitCode (script Semver.coerce Samples.envSkip Samples.allLegacy) = Some 0%Z.
Proof.
  split; [vm_compute; reflexivity|]. split; [vm_compute; reflexivity|].
  apply (skip_exits_before_anything_else Semver.coerce Samples.envSkip
           Samples.allLegacy "1"); [vm_compute; reflexivity | discriminate].
Defined.

(** C3. For every data source, when the query for migrations started
    before 2023-04-17 returns at least one row, the guard prints the
    pointer to the migration guide and throws, the check of that data
    source fails, the migration command is not executed for it, and a
    run that is not skipped exits with code 1. *)
Theorem v1_rows_are_fatal
  (coerce : string -> option Semver.t) (env : Env) (world : World)
  (envVar : string) (old : Row) (olds : list Row) :
  In envVar DATABASE_URLS ->
  migrationRows (world envVar) = inr (old :: olds) ->
  let w := world envVar in
  let dbUrl := env !! envVar in
  checkV1Tables w dbUrl envVar
  = ([Query dbUrl
        "SELECT * FROM _prisma_migrations WHERE started_at < '2023-04-17'";
      Log Cross (tagged envVar v1GuideMessage)],
     Thrown (tagged envVar "Umami v1 tables detected.")) /\
  (exists msg,
      completion (performChecks coerce w dbUrl envVar)
      = Thrown (tagged envVar msg)) /\
  execs (trace (performChecks coerce w dbUrl envVar)) = [] /\
  (Js.truthy (env !! "SKIP_DB_CHECK") = false ->
   exitCode (script coerce env world) = Some 1%Z).
Proof.
  intros Hin Hrows. cbv zeta.
  pose proof (checkRun_v1 coerce (world envVar) (env !! envVar) envVar _ _
                (performChecks_run coerce (world envVar) (env !! envVar) envVar)
                old olds Hrows)
    as [Hthrown Hexecs].
  split.
  { unfold checkV1Tables, prisma_queryRaw. rewrite Hrows. reflexivity. }
  split; [exact Hthrown|]. split; [exact Hexecs|].
  intros Hskip.
  destruct (script_exitCode coerce env world) as [[H0 | H1] Hiff]; [|exact H1].
  exfalso. apply Hiff in H0 as [H | [_ Hall]]; [congruence|].
  rewrite List.Forall_forall in Hall. specialize (Hall envVar Hin).
  unfold passes in Hall.
  destruct Hthrown as [msg Hthrown]. congruence.
Qed.

Lemma v1_rows_are_fatal_witness :
  execs (trace (performChecks Semver.coerce (Samples.allLegacy "DATABASE_URL")
                  (Samples.env !! "DATABASE_URL") "DATABASE_URL")) = [] /\
  exitCode (script Semver.coerce Samples.env Samples.allLegacy) = Some 1%Z.
Proof.
  destruct (v1_rows_are_fatal Semver.coerce Samples.env Samples.allLegacy
              "DATABASE_URL" {[ "migration_name" := "01_init" ]} [])
    as (_ & _ & Hexecs & Hexit); [left; reflexivity | reflexivity |].
  split; [exact Hexecs|]. apply Hexit. vm_compute. reflexivity.
Defined.

(** C9. The check of a data source begins by taking its connection and
    ends by releasing it, however the check completes, and takes or
    releases nothing in between. In every run of the script each
    connection is released before the next one is taken and before the
    process exits. *)
Theorem connection_released_before_next
  (coerce : string -> option Semver.t) (env : Env) (world : World)
  (w : Responses) (dbUrl : Js.value) (label : string) :
  (exists mid,
      trace (performChecks coerce w dbUrl label)
      = Connect dbUrl :: mid ++ [Disconnect dbUrl] /\
      holder (Some dbUrl) mid = Some (Some dbUrl)) /\
  released (trace (performChecks coerce w dbUrl label)) /\
  released (trace (script coerce env world)).
Proof.
  pose proof (performChecks_run coerce w dbUrl label) as Hrun.
  split; [exact (checkRun_bracket _ _ _ _ _ _ Hrun)|].
  split; [exact (checkRun_released _ _ _ _ _ _ Hrun)|].
  apply script_released.
Qed.

(** C10. Every external command that the check of a data source executes
    is the constant ['npx prisma migrate deploy'], whatever the URL, the
    label and the answers of the world: two data sources that reach the
    migration step execute the same command. *)
Theorem migration_command_is_constant
  (coerce : string -> option Semver.t)
  (w1 w2 : Responses) (dbUrl1 dbUrl2 : Js.value) (label1 label2 : string)
  (cmd1 cmd2 : string) :
  In (Exec cmd1) (trace (performChecks coerce w1 dbUrl1 label1)) ->
  In (Exec cmd2) (trace (performChecks coerce w2 dbUrl2 label2)) ->
  cmd1 = "npx prisma migrate deploy" /\ cmd2 = cmd1.
Proof.
  intros H1 H2. apply execs_In in H1, H2.
  assert (Hconst : forall w dbUrl label cmd,
             In cmd (execs (trace (performChecks coerce w dbUrl label))) ->
             cmd = migrateCommand).
  { intros w dbUrl label cmd Hin.
    destruct (checkRun_execs _ _ _ _ _ _ (performChecks_run coerce w dbUrl label))
      as [[Hnone _] | Hone]; rewrite ?Hnone, ?Hone in Hin.
    - destruct Hin.
    - destruct Hin as [<- | []]. reflexivity. }
  rewrite (Hconst _ _ _ _ H1), (Hconst _ _ _ _ H2). split; reflexivity.
Qed.

Lemma migration_command_is_constant_witness :
  In (Exec migrateCommand)
     (trace (performChecks Semver.coerce (Samples.healthy "PostgreSQL 14.5")
               (Some Samples.pgUrl) "DATABASE_URL")) /\
  In (Exec migrateCommand)
     (trace (performChecks Semver.coerce (Samples.healthy "8.0.30-log")
               (Some Samples.mysqlUrl) "DIRECT_DATABASE_URL")) /\
  migrateCommand = "npx prisma migrate deploy".
Proof.
  assert (H1 : In (Exec migrateCommand)
     (trace (performChecks Semver.coerce (Samples.healthy "PostgreSQL 14.5")
               (Some Samples.pgUrl) "DATABASE_URL"))).
  { apply execs_In. vm_compute. left. reflexivity. }
  assert (H2 : In (Exec migrateCommand)
     (trace (performChecks Semver.coerce (Samples.healthy "8.0.30-log")
               (Some Samples.mysqlUrl) "DIRECT_DATABASE_URL"))).
  { apply execs_In. vm_compute. left. reflexivity. }
  split; [exact H1|]. split; [exact H2|].
  apply (migration_command_is_constant _ _ _ _ _ _ _ _ _ H1 H2).
Defined.

(** C2. The script exits with code 0 or 1, and with code 0 only when it
    is skipped or no required variable is missing and every data source,
    in declared order, passes every step. When the data sources before
    one have passed and that one fails, the run is the checks of those
    before it, in order, then the failing check, then one red line with
    the error, which starts with the label of the failing data source,
    then exit code 1: no later data source is checked. In particular,
    when the first data source passes and the second fails the version
    gate, the exit code is 1 and the migration command is not executed
    for the second. *)
Theorem first_failure_aborts_the_run
  (coerce : string -> option Semver.t) (env : Env) (world : World) :
  let run := script coerce env world in
  let check envVar := performChecks coerce (world envVar) (env !! envVar) envVar in
  (exitCode run = Some 0%Z \/ exitCode run = Some 1%Z) /\
  (exitCode run = Some 0%Z <->
   Js.truthy (env !! "SKIP_DB_CHECK") = true \/
   (missing env = [] /\
    Forall (fun envVar => allStepsPass coerce (world envVar) (env !! envVar))
      DATABASE_URLS)) /\
  (forall before envVar after msg,
      Js.truthy (env !! "SKIP_DB_CHECK") = false ->
      missing env = [] ->
      DATABASE_URLS = before ++ envVar :: after ->
      Forall (fun name => completion (check name) = Normal tt) before ->
      completion (check envVar) = Thrown msg ->
      run = (trace (checkEnv env)
             ++ List.concat (map (fun name => trace (check name)) before)
             ++ trace (check envVar) ++ [Log Cross msg; Exit 1], Exited 1) /\
      exists inner, msg = "[" +:+ envVar +:+ "] " +:+ inner) /\
  (Js.truthy (env !! "SKIP_DB_CHECK") = false ->
   missing env = [] ->
   completion (check "DATABASE_URL") = Normal tt ->
   (exists msg,
       completion (checkDatabaseVersion coerce (world "DIRECT_DATABASE_URL")
                     (env !! "DIRECT_DATABASE_URL") "DIRECT_DATABASE_URL")
       = Thrown msg) ->
   exitCode run = Some 1%Z /\
   execs (trace (check "DIRECT_DATABASE_URL")) = [] /\
   exists inner,
     trace run
     = trace (checkEnv env) ++ trace (check "DATABASE_URL")
       ++ trace (check "DIRECT_DATABASE_URL")
       ++ [Log Cross ("[DIRECT_DATABASE_URL] " +:+ inner); Exit 1]).
Proof.
  intros run check. subst run.
  destruct (script_exitCode coerce env world) as [Hcodes Hzero].
  assert (Hlines : trace (checkEnv env) = envLines env).
  { rewrite checkEnv_run. reflexivity. }
  split; [exact Hcodes|]. split; [|split].
  - rewrite Hzero. apply or_iff_compat_l, and_iff_compat_l.
    split; apply List.Forall_impl; intros envVar;
      apply (checkRun_passes _ _ _ _ _ _ (performChecks_run _ _ _ _)).
  - intros before envVar after msg Hskip Hmissing Hsplit Hbefore Hfail.
    rewrite (script_not_skipped coerce env world Hskip), Hlines.
    rewrite (main_first_failure coerce env world _ _ _ _
               Hmissing Hsplit Hbefore Hfail).
    split; [reflexivity|].
    destruct (check_completion coerce env world envVar) as [Hpass | [inner Hin]].
    + unfold passes in Hpass. fold (check envVar) in Hpass. congruence.
    + exists inner. fold (check envVar) in Hin. rewrite Hfail in Hin.
      injection Hin as ->. reflexivity.
  - intros Hskip Hmissing Hfirst Hgate.
    destruct (gate_failure_stops_check coerce _ _ _ Hgate)
      as [[inner Hfail] Hexecs].
    assert (Hbefore : Forall (passes coerce env world) ["DATABASE_URL"]).
    { constructor; [exact Hfirst | constructor]. }
    rewrite (script_not_skipped coerce env world Hskip), Hlines.
    rewrite (main_first_failure coerce env world ["DATABASE_URL"]
               "DIRECT_DATABASE_URL" [] _ Hmissing eq_refl Hbefore Hfail).
    split; [reflexivity|]. split; [exact Hexecs|].
    exists inner. cbn [trace fst map List.concat]. rewrite app_nil_r.
    reflexivity.
Qed.

Lemma first_failure_aborts_the_run_witness :
  exitCode (script Semver.coerce Samples.env Samples.secondTooOld) = Some 1%Z /\
  execs (trace (script Semver.coerce Samples.env Samples.secondTooOld))
  = [migrateCommand].
Proof.
  destruct (first_failure_aborts_the_run Semver.coerce Samples.env
              Samples.secondTooOld) as (_ & _ & _ & Hscenario).
  destruct Hscenario as (Hexit & _ & _).
  - vm_compute. reflexivity.
  - vm_compute. reflexivity.
  - vm_compute. reflexivity.
  - eexists. vm_compute. reflexivity.
  - split; [exact Hexit | vm_compute; reflexivity].
Defined.

(* ===================================================================== *)
(** ** Further properties of [getDatabaseType] *)
(* ===================================================================== *)

Lemma getDatabaseType_some url :
  exists scheme,
    is_scheme scheme url /\
    getDatabaseType (Some url)
    = Some (if String.eqb scheme "postgres" then "postgresql" else scheme).
Proof.
  destruct (scheme_exists url) as [scheme Hs].
  exists scheme. split; [exact Hs | apply getDatabaseType_of_scheme, Hs].
Qed.

(** X1. A falsy URL, [undefined] or the empty string, is returned as it
    is: there is no default family. *)
Theorem getDatabaseType_falsy_unchanged (url : Js.value) :
  Js.truthy url = false -> getDatabaseType url = url.
Proof.
  destruct url as [u|]; [|reflexivity].
  simpl. destruct (String.eqb_spec u "") as [->|]; [reflexivity | discriminate].
Qed.

Lemma getDatabaseType_falsy_unchanged_witness :
  getDatabaseType None = None /\ getDatabaseType (Some "") = Some "".
Proof.
  split.
  - apply (getDatabaseType_falsy_unchanged None). reflexivity.
  - apply (getDatabaseType_falsy_unchanged (Some "")). reflexivity.
Defined.

(** X2. Whatever the argument, the result is never ['postgres'], and a
    result that is a string contains no colon. *)
Theorem getDatabaseType_result_shape (url : Js.value) (type : string) :
  getDatabaseType url = Some type ->
  type <> "postgres" /\ Js.has_char ":" type = false.
Proof.
  destruct url as [u|]; [|discriminate].
  destruct (getDatabaseType_some u) as (scheme & [Hcolon _] & ->).
  intros [= <-].
  destruct (String.eqb_spec scheme "postgres") as [->|Hne].
  - split; [discriminate | reflexivity].
  - split; [exact Hne | exact Hcolon].
Qed.

Lemma getDatabaseType_result_shape_witness :
  getDatabaseType (Some "postgres:postgres:5432") = Some "postgresql" /\
  "postgresql" <> "postgres" /\ Js.has_char ":" "postgresql" = false.
Proof.
  split; [reflexivity|].
  apply (getDatabaseType_result_shape (Some "postgres:postgres:5432")).
  reflexivity.
Defined.

(** X3. Which URLs are held to the 9.4.0 minimum: those whose scheme is
    ['postgres'] or ['postgresql'], spelled exactly so. Every other
    scheme, the empty one included, is held to 5.7.0. *)
Theorem minimum_by_scheme (url scheme : string) :
  is_scheme scheme url ->
  (scheme = "postgres" \/ scheme = "postgresql" ->
   minVersion (getDatabaseType (Some url)) = Semver.mk 9 4 0) /\
  (scheme <> "postgres" -> scheme <> "postgresql" ->
   minVersion (getDatabaseType (Some url)) = Semver.mk 5 7 0).
Proof.
  intros Hs. rewrite (getDatabaseType_of_scheme scheme url Hs).
  split.
  - intros [-> | ->]; reflexivity.
  - intros H1 H2. destruct (String.eqb_spec scheme "postgres"); [contradiction|].
    apply minVersion_family. congruence.
Qed.

Lemma minimum_by_scheme_witness :
  is_scheme "POSTGRESQL" "POSTGRESQL://db/umami" /\
  minVersion (getDatabaseType (Some "POSTGRESQL://db/umami")) = Semver.mk 5 7 0 /\
  is_scheme "postgres" Samples.pgDirectUrl /\
  minVersion (getDatabaseType (Some Samples.pgDirectUrl)) = Semver.mk 9 4 0.
Proof.
  assert (H1 : is_scheme "POSTGRESQL" "POSTGRESQL://db/umami").
  { split; [reflexivity|]. right. exists "//db/umami". reflexivity. }
  assert (H2 : is_scheme "postgres" Samples.pgDirectUrl).
  { split; [reflexivity|]. right. exists "//umami:secret@db:5432/umami".
    reflexivity. }
  split; [exact H1|]. split.
  - apply (minimum_by_scheme _ _ H1); discriminate.
  - split; [exact H2|]. apply (minimum_by_scheme _ _ H2). left. reflexivity.
Defined.

(* ===================================================================== *)
(** ** Further properties of the check of one data source *)
(* ===================================================================== *)

Ltac run_cases coerce w dbUrl label :=
  destruct (performChecks_run coerce w dbUrl label);
  unfold uptoMigrate, uptoMigrationsQuery, uptoVersionQuery;
  cbn [app execs queries connects statusLines].

Ltac same_rows :=
  repeat match goal with
    | H1 : versionRows ?w = inr (?r1 :: ?rs1),
      H2 : versionRows ?w = inr (?r2 :: ?rs2) |- _ =>
        assert (r1 = r2 /\ rs1 = rs2) as [? ?] by (split; congruence);
        clear H2; subst
    end.

Ltac same_version :=
  match goal with
  | Hraw : ?row !! "version" = _, H : validCoerce _ (?row !! "version") = _ |- _ =>
      rewrite Hraw in H; cbn [validCoerce] in H
  end.

(** X4. A rejected [$connect] ends the check at once: nothing is sent to
    the database, the client is still disconnected, and the error is the
    client's message behind the label. *)
Theorem rejected_connection_sends_nothing
  (coerce : string -> option Semver.t) (w : Responses) (dbUrl : Js.value)
  (label msg : string) :
  connected w = Some msg ->
  trace (performChecks coerce w dbUrl label)
  = [Connect dbUrl; Disconnect dbUrl] /\
  completion (performChecks coerce w dbUrl label)
  = Thrown ("[" +:+ label +:+ "] " +:+ msg).
Proof.
  intros Hc. run_cases coerce w dbUrl label; try congruence.
  match goal with
  | H : connected w = Some ?m |- _ => assert (m = msg) by congruence; subst m
  end.
  split; reflexivity.
Qed.

Lemma rejected_connection_sends_nothing_witness :
  trace (performChecks Semver.coerce Answers.unreachable (Some Samples.pgUrl)
           "DATABASE_URL")
  = [Connect (Some Samples.pgUrl); Disconnect (Some Samples.pgUrl)].
Proof.
  apply (rejected_connection_sends_nothing Semver.coerce Answers.unreachable
           (Some Samples.pgUrl) "DATABASE_URL"
           "Can't reach database server at `db`:`5432`").
  reflexivity.
Defined.

(** X5. When the version query returns no row, reading the first row
    raises a [TypeError]; it is caught like any other error, so the check
    fails with that message behind the label, and neither the migrations
    query nor the migration command follows. *)
Theorem empty_version_result_fails_the_check
  (coerce : string -> option Semver.t) (w : Responses) (dbUrl : Js.value)
  (label : string) :
  connected w = None ->
  versionRows w = inr [] ->
  trace (performChecks coerce w dbUrl label)
  = [Connect dbUrl;
     Log Tick ("[" +:+ label +:+ "] Database connection successful.");
     Query dbUrl "SELECT version()";
     Disconnect dbUrl] /\
  completion (performChecks coerce w dbUrl label)
  = Thrown ("[" +:+ label +:+ "] " +:+ noRowMessage).
Proof.
  intros Hc Hv. run_cases coerce w dbUrl label; try congruence.
  split; reflexivity.
Qed.

Lemma empty_version_result_fails_the_check_witness :
  completion (performChecks Semver.coerce Answers.noVersionRow
                (Some Samples.pgUrl) "DATABASE_URL")
  = Thrown "[DATABASE_URL] Cannot read properties of undefined (reading 'version')".
Proof.
  apply (empty_version_result_fails_the_check Semver.coerce
           Answers.noVersionRow (Some Samples.pgUrl) "DATABASE_URL");
    reflexivity.
Defined.

(** X6. The gate reads the property [version] of the first row. When the
    row has no such property, the check fails as unparseable whatever
    [coerce] is and whatever the other columns hold. *)
Theorem missing_version_column_is_unparseable
  (coerce : string -> option Semver.t) (w : Responses) (dbUrl : Js.value)
  (label : string) (row : Row) (rows : list Row) :
  connected w = None ->
  versionRows w = inr (row :: rows) ->
  row !! "version" = None ->
  trace (performChecks coerce w dbUrl label)
  = [Connect dbUrl;
     Log Tick ("[" +:+ label +:+ "] Database connection successful.");
     Query dbUrl "SELECT version()";
     Disconnect dbUrl] /\
  completion (performChecks coerce w dbUrl label)
  = Thrown ("[" +:+ label +:+ "] [" +:+ label
            +:+ "] Unable to parse database version.").
Proof.
  intros Hc Hv Hraw. run_cases coerce w dbUrl label; try congruence;
    same_rows; same_version; try discriminate.
  split; reflexivity.
Qed.

Lemma missing_version_column_is_unparseable_witness :
  Semver.coerce "8.0.30" = Some (Semver.mk 8 0 30) /\
  completion (performChecks Semver.coerce (Answers.unaliased "8.0.30")
                (Some Samples.mysqlUrl) "DATABASE_URL")
  = Thrown "[DATABASE_URL] [DATABASE_URL] Unable to parse database version.".
Proof.
  split; [reflexivity|].
  apply (missing_version_column_is_unparseable Semver.coerce
           (Answers.unaliased "8.0.30") (Some Samples.mysqlUrl) "DATABASE_URL"
           {[ "version()" := "8.0.30" ]} []); reflexivity.
Defined.



Lemma execs_characterised
  (coerce : string -> option Semver.t) (w : Responses) (dbUrl : Js.value)
  (label : string) :
  let t := trace (performChecks coerce w dbUrl label) in
  (execs t = ["npx prisma migrate deploy"] <->
   connected w = None /\
   (exists row rows raw version,
       versionRows w = inr (row :: rows) /\ row !! "version" = Some raw /\
       coerce raw = Some version /\
       Semver.lt version (minVersion (getDatabaseType dbUrl)) = false) /\
   migrationRows w = inr []) /\
  (execs t = [] \/ execs t = ["npx prisma migrate deploy"]).
Proof.
  cbv zeta. split.
  - split.
    + run_cases coerce w dbUrl label; intros He; try discriminate He;
        (split; [assumption|]); (split; [|assumption]);
        match goal with
        | H : validCoerce _ (?row !! "version") = Some ?v |- _ =>
            destruct (row !! "version") as [raw|] eqn:Hraw;
            [cbn [validCoerce] in H | discriminate H];
            exists row; do 3 eexists; repeat split; eassumption
        end.
    + intros (Hc & (row & rows & raw & version & Hv & Hraw & Hco & Hlt) & Hm).
      run_cases coerce w dbUrl label; try congruence;
        same_rows; same_version; first [congruence | reflexivity].
  - run_cases coerce w dbUrl label; auto.
Qed.

(** X8. The migration command is executed exactly when the connection
    succeeded, the reported version parsed and is not below the minimum,
    and the migrations query returned no row; in every other run nothing
    is executed. *)
Theorem migration_runs_iff_checks_passed
  (coerce : string -> option Semver.t) (w : Responses) (dbUrl : Js.value)
  (label : string) :
  let t := trace (performChecks coerce w dbUrl label) in
  (execs t = ["npx prisma migrate deploy"] <->
   connected w = None /\
   (exists row rows raw version,
       versionRows w = inr (row :: rows) /\ row !! "version" = Some raw /\
       coerce raw = Some version /\
       Semver.lt version (minVersion (getDatabaseType dbUrl)) = false) /\
   migrationRows w = inr []) /\
  (execs t = [] \/ execs t = ["npx prisma migrate deploy"]).
Proof. apply execs_characterised. Qed.

(** X9. A check sends at most two statements, the version query and then
    the migrations query, and the migrations query is sent exactly when
    the connection succeeded and the version passed the gate. *)
Theorem migrations_query_follows_the_gate
  (coerce : string -> option Semver.t) (w : Responses) (dbUrl : Js.value)
  (label : string) :
  let t := trace (performChecks coerce w dbUrl label) in
  (queries t = [] \/ queries t = [versionQuery] \/
   queries t = [versionQuery; migrationsQuery]) /\
  (queries t = [] <-> connected w <> None) /\
  (queries t = [versionQuery; migrationsQuery] <->
   connected w = None /\
   exists row rows raw version,
     versionRows w = inr (row :: rows) /\ row !! "version" = Some raw /\
     coerce raw = Some version /\
     Semver.lt version (minVersion (getDatabaseType dbUrl)) = false).
Proof.
  cbv zeta. split; [|split].
  - run_cases coerce w dbUrl label; auto.
  - run_cases coerce w dbUrl label; split; intros Hq;
      try discriminate Hq; try congruence; try reflexivity.
  - split.
    + run_cases coerce w dbUrl label; intros He; try discriminate He;
        (split; [assumption|]);
        match goal with
        | H : validCoerce _ (?row !! "version") = Some ?v |- _ =>
            destruct (row !! "version") as [raw|] eqn:Hraw;
            [cbn [validCoerce] in H | discriminate H];
            exists row; do 3 eexists; repeat split; eassumption
        end.
    + intros (Hc & row & rows & raw & version & Hv & Hraw & Hco & Hlt).
      run_cases coerce w dbUrl label; try congruence;
        same_rows; same_version; first [congruence | reflexivity].
Qed.

(** X10. With the connection made, the check completes as its first
    failing step does, with the label put once more in front of that
    step's message, and normally when the three steps do. Its trace is
    the connection, the traces of the steps that ran, and the
    disconnection. *)
Theorem check_completes_as_first_failing_step
  (coerce : string -> option Semver.t) (w : Responses) (dbUrl : Js.value)
  (label : string) :
  connected w = None ->
  let gate := checkDatabaseVersion coerce w dbUrl label in
  let guard := checkV1Tables w dbUrl label in
  let migration := applyMigration w label in
  let check := performChecks coerce w dbUrl label in
  let opening :=
    [Connect dbUrl;
     Log Tick ("[" +:+ label +:+ "] Database connection successful.")] in
  (forall msg,
      completion gate = Thrown msg ->
      completion check = Thrown ("[" +:+ label +:+ "] " +:+ msg) /\
      trace check = opening ++ trace gate ++ [Disconnect dbUrl]) /\
  (forall msg,
      completion gate = Normal tt ->
      completion guard = Thrown msg ->
      completion check = Thrown ("[" +:+ label +:+ "] " +:+ msg) /\
      trace check = opening ++ trace gate ++ trace guard ++ [Disconnect dbUrl]) /\
  (completion gate = Normal tt ->
   completion guard = Normal tt ->
   trace check
   = opening ++ trace gate ++ trace guard ++ trace migration
     ++ [Disconnect dbUrl] /\
   completion check
   = match completion migration with
     | Thrown msg => Thrown ("[" +:+ label +:+ "] " +:+ msg)
     | other => other
     end).
Proof.
  intros Hc. cbv zeta.
  unfold performChecks, prisma_connect. rewrite Hc.
  destruct (checkDatabaseVersion coerce w dbUrl label) as [tg rg].
  destruct (checkV1Tables w dbUrl label) as [tv rv].
  assert (Hm : exists tm rm,
             applyMigration w label = (tm, rm) /\
             forall code, rm <> Exited code).
  { unfold applyMigration, execSync.
    destruct (migrateDeploy w); do 2 eexists; (split; [reflexivity|]);
      discriminate. }
  destruct Hm as (tm & rm & -> & Hrm).
  cbn [trace completion fst snd].
  split; [|split].
  - intros msg ->. split; [reflexivity|].
    cbn. rewrite app_nil_r. reflexivity.
  - intros msg -> ->. split; [reflexivity|].
    cbn. rewrite app_nil_r, <- app_assoc. reflexivity.
  - intros -> ->.
    destruct rm as [[]|msg|code]; [| |destruct (Hrm code eq_refl)]; cbn;
      rewrite ?app_nil_r, <- ?app_assoc; split; reflexivity.
Qed.

Lemma check_completes_as_first_failing_step_witness :
  completion (checkV1Tables (Samples.legacy "PostgreSQL 14.5")
                (Some Samples.pgUrl) "DATABASE_URL")
  = Thrown "[DATABASE_URL] Umami v1 tables detected." /\
  completion (performChecks Semver.coerce (Samples.legacy "PostgreSQL 14.5")
                (Some Samples.pgUrl) "DATABASE_URL")
  = Thrown "[DATABASE_URL] [DATABASE_URL] Umami v1 tables detected.".
Proof.
  split; [reflexivity|].
  destruct (check_completes_as_first_failing_step Semver.coerce
              (Samples.legacy "PostgreSQL 14.5") (Some Samples.pgUrl)
              "DATABASE_URL") as (_ & Hguard & _); [reflexivity|].
  apply (Hguard "[DATABASE_URL] Umami v1 tables detected."); reflexivity.
Defined.

(** X11. Every tick or cross line that the check of a data source prints
    starts with the label of that data source in brackets. *)
Theorem status_lines_carry_the_label
  (coerce : string -> option Semver.t) (w : Responses) (dbUrl : Js.value)
  (label line : string) :
  In line (statusLines (trace (performChecks coerce w dbUrl label))) ->
  exists body, line = "[" +:+ label +:+ "] " +:+ body.
Proof.
  run_cases coerce w dbUrl label; cbn [In]; intros Hin;
    repeat match goal with
      | H : _ \/ _ |- _ => destruct H as [H | H]
      | H : False |- _ => destruct H
      end; subst line; eexists; reflexivity.
Qed.

Lemma status_lines_carry_the_label_witness :
  In "[DIRECT_DATABASE_URL] No Umami v1 tables detected."
     (statusLines (trace (performChecks Semver.coerce
                            (Samples.healthy "PostgreSQL 14.5")
                            (Some Samples.pgDirectUrl) "DIRECT_DATABASE_URL")))
  /\ exists body,
      "[DIRECT_DATABASE_URL] No Umami v1 tables detected."
      = "[" +:+ "DIRECT_DATABASE_URL" +:+ "] " +:+ body.
Proof.
  assert (Hin : In "[DIRECT_DATABASE_URL] No Umami v1 tables detected."
     (statusLines (trace (performChecks Semver.coerce
                            (Samples.healthy "PostgreSQL 14.5")
                            (Some Samples.pgDirectUrl) "DIRECT_DATABASE_URL")))).
  { vm_compute. right. right. left. reflexivity. }
  split; [exact Hin|].
  exact (status_lines_carry_the_label _ _ _ _ _ Hin).
Defined.

(** X12. Whether the check of a data source passes, and whether the
    migration command is executed, depends on the label not at all and
    on the URL only through its database family. *)
Theorem outcome_depends_on_family_only
  (coerce : string -> option Semver.t) (w : Responses)
  (dbUrl1 dbUrl2 : Js.value) (label1 label2 : string) :
  getDatabaseType dbUrl1 = getDatabaseType dbUrl2 ->
  (completion (performChecks coerce w dbUrl1 label1) = Normal tt <->
   completion (performChecks coerce w dbUrl2 label2) = Normal tt) /\
  execs (trace (performChecks coerce w dbUrl1 label1))
  = execs (trace (performChecks coerce w dbUrl2 label2)).
Proof.
  intros Hfamily. split.
  - rewrite (checkRun_passes _ _ _ _ _ _ (performChecks_run coerce w dbUrl1 label1)).
    rewrite (checkRun_passes _ _ _ _ _ _ (performChecks_run coerce w dbUrl2 label2)).
    unfold allStepsPass. rewrite Hfamily. reflexivity.
  - destruct (execs_characterised coerce w dbUrl1 label1) as [Hiff1 Hor1].
    destruct (execs_characterised coerce w dbUrl2 label2) as [Hiff2 Hor2].
    cbv zeta in *. rewrite Hfamily in Hiff1. rewrite <- Hiff2 in Hiff1.
    destruct Hor1 as [H1 | H1], Hor2 as [H2 | H2]; rewrite H1, H2;
      try reflexivity.
    + apply Hiff1 in H2. congruence.
    + apply Hiff1 in H1. congruence.
Qed.

Lemma outcome_depends_on_family_only_witness :
  getDatabaseType (Some Samples.pgDirectUrl) = getDatabaseType (Some Samples.pgUrl)
  /\ execs (trace (performChecks Semver.coerce (Samples.healthy "PostgreSQL 9.3.1")
                     (Some Samples.pgDirectUrl) "DIRECT_DATABASE_URL"))
     = execs (trace (performChecks Semver.coerce (Samples.healthy "PostgreSQL 9.3.1")
                       (Some Samples.pgUrl) "DATABASE_URL")).
Proof.
  split; [reflexivity|].
  apply (outcome_depends_on_family_only Semver.coerce
           (Samples.healthy "PostgreSQL 9.3.1")). reflexivity.
Defined.

Lemma lt_false_trans a b c :
  Semver.lt a b = false -> Semver.lt b c = false -> Semver.lt a c = false.
Proof.
  intros Hab Hbc.
  destruct (Semver.lt a c) eqn:Hac; [|reflexivity].
  apply lt_precedes in Hac.
  assert (Hnab : ~ Semver.precedes a b) by (rewrite <- lt_precedes; congruence).
  assert (Hnbc : ~ Semver.precedes b c) by (rewrite <- lt_precedes; congruence).
  unfold Semver.precedes in *. exfalso. lia.
Qed.

(** X13. The gate is monotone in the reported version: against the same
    URL, a server whose version is not below one that passes the gate
    passes it too. *)
Theorem gate_is_monotone
  (coerce : string -> option Semver.t) (w w' : Responses) (dbUrl : Js.value)
  (label label' : string) (row row' : Row) (rows rows' : list Row)
  (raw raw' : string) (version version' : Semver.t) :
  versionRows w = inr (row :: rows) ->
  row !! "version" = Some raw ->
  coerce raw = Some version ->
  versionRows w' = inr (row' :: rows') ->
  row' !! "version" = Some raw' ->
  coerce raw' = Some version' ->
  Semver.lt version' version = false ->
  completion (checkDatabaseVersion coerce w dbUrl label) = Normal tt ->
  completion (checkDatabaseVersion coerce w' dbUrl label') = Normal tt.
Proof.
  intros Hv Hraw Hco Hv' Hraw' Hco' Hle.
  rewrite (gate_run coerce w dbUrl label row rows Hv), Hraw.
  rewrite (gate_run coerce w' dbUrl label' row' rows' Hv'), Hraw'.
  cbn [validCoerce]. rewrite Hco, Hco'.
  destruct (Semver.lt version (minVersion (getDatabaseType dbUrl))) eqn:Hmin;
    [discriminate|]. intros _.
  rewrite (lt_false_trans _ _ _ Hle Hmin). reflexivity.
Qed.

Lemma gate_is_monotone_witness :
  completion (checkDatabaseVersion Semver.coerce
                (Samples.healthy "PostgreSQL 9.4.0") (Some Samples.pgUrl)
                "DATABASE_URL") = Normal tt /\
  completion (checkDatabaseVersion Semver.coerce
                (Samples.healthy "PostgreSQL 10.0") (Some Samples.pgUrl)
                "DIRECT_DATABASE_URL") = Normal tt.
Proof.
  assert (H : completion (checkDatabaseVersion Semver.coerce
                (Samples.healthy "PostgreSQL 9.4.0") (Some Samples.pgUrl)
                "DATABASE_URL") = Normal tt) by reflexivity.
  split; [exact H|].
  apply (gate_is_monotone Semver.coerce
           (Samples.healthy "PostgreSQL 9.4.0") (Samples.healthy "PostgreSQL 10.0")
           (Some Samples.pgUrl) "DATABASE_URL" "DIRECT_DATABASE_URL"
           (Samples.versionRow "PostgreSQL 9.4.0")
           (Samples.versionRow "PostgreSQL 10.0") [] []
           "PostgreSQL 9.4.0" "PostgreSQL 10.0"
           (Semver.mk 9 4 0) (Semver.mk 10 0 0));
    reflexivity.
Defined.

(* ===================================================================== *)
(** ** Further properties of the run *)
(* ===================================================================== *)

Lemma execs_append t1 t2 : execs (t1 ++ t2) = execs t1 ++ execs t2.
Proof.
  induction t1 as [|e t1 IH]; simpl; [reflexivity|].
  destruct e; simpl; rewrite IH; reflexivity.
Qed.

Lemma execs_of_envLines env names : execs (map (envLine env) names) = [].
Proof.
  induction names as [|envVar names IH]; simpl; [reflexivity|].
  unfold envLine at 1. destruct (Js.truthy (env !! envVar)); exact IH.
Qed.

Lemma two_split {A} (a b : A) before x after :
  [a; b] = before ++ x :: after ->
  (before = [] /\ x = a /\ after = [b]) \/
  (before = [a] /\ x = b /\ after = []).
Proof.
  destruct before as [|b0 [|b1 [|b2 before]]]; cbn [app]; intros H.
  - injection H as <- <-. left. auto.
  - injection H as <- <- <-. right. auto.
  - injection H as _ _ H. destruct after; discriminate H.
  - injection H as _ _ H. discriminate H.
Qed.

Section Run.

Variable coerce : string -> option Semver.t.
Variables (env : Env) (world : World).

(** The four ways in which the script runs. *)
Lemma script_cases :
  (Js.truthy (env !! "SKIP_DB_CHECK") = true /\
   script coerce env world
   = ([Log Plain "Skipping database check."; Exit 0], Exited 0)) \/
  (Js.truthy (env !! "SKIP_DB_CHECK") = false /\ missing env <> [] /\
   script coerce env world
   = (envLines env ++ [Log Cross missingMessage; Exit 1], Exited 1)) \/
  (Js.truthy (env !! "SKIP_DB_CHECK") = false /\ missing env = [] /\
   Forall (passes coerce env world) DATABASE_URLS /\
   script coerce env world
   = (envLines env
      ++ List.concat (map (checkTrace coerce env world) DATABASE_URLS)
      ++ [Log Blue allPassedMessage; Exit 0], Exited 0)) \/
  (Js.truthy (env !! "SKIP_DB_CHECK") = false /\ missing env = [] /\
   exists before envVar after msg,
     DATABASE_URLS = before ++ envVar :: after /\
     Forall (passes coerce env world) before /\
     completion (performChecks coerce (world envVar) (env !! envVar) envVar)
     = Thrown (tagged envVar msg) /\
     script coerce env world
     = (envLines env
        ++ List.concat (map (checkTrace coerce env world) before)
        ++ checkTrace coerce env world envVar
        ++ [Log Cross (tagged envVar msg); Exit 1], Exited 1)).
Proof.
  destruct (Js.truthy (env !! "SKIP_DB_CHECK")) eqn:Hskip.
  { left. split; [reflexivity | apply script_skipped, Hskip]. }
  right. rewrite (script_not_skipped coerce env world Hskip).
  destruct (missing env) as [|name names] eqn:Hmissing.
  2:{ left. split; [reflexivity|]. split; [discriminate|].
      apply main_env_incomplete. rewrite Hmissing. discriminate. }
  right.
  destruct (pass_or_first_failure coerce env world DATABASE_URLS)
    as [Hall | (before & x & after & msg & Hsplit & Hbefore & Hfail)].
  - left. split; [reflexivity|]. split; [reflexivity|].
    split; [exact Hall | apply main_all_pass; assumption].
  - right. split; [reflexivity|]. split; [reflexivity|].
    exists before, x, after, msg.
    split; [exact Hsplit|]. split; [exact Hbefore|]. split; [exact Hfail|].
    apply (main_first_failure coerce env world _ _ _ _
             Hmissing Hsplit Hbefore Hfail).
Qed.

Lemma execs_checkTrace envVar :
  (passes coerce env world envVar ->
   execs (checkTrace coerce env world envVar) = [migrateCommand]) /\
  (execs (checkTrace coerce env world envVar) = [] \/
   execs (checkTrace coerce env world envVar) = [migrateCommand]).
Proof.
  unfold passes, checkTrace.
  destruct (checkRun_execs _ _ _ _ _ _
              (performChecks_run coerce (world envVar) (env !! envVar) envVar))
    as [[Hnone Hfail] | Hone].
  - split; [intros Hpass; contradiction | left; exact Hnone].
  - split; [intros _; exact Hone | right; exact Hone].
Qed.

Lemma execs_passed_checks names :
  Forall (passes coerce env world) names ->
  execs (List.concat (map (checkTrace coerce env world) names))
  = map (fun _ => migrateCommand) names.
Proof.
  induction 1 as [|envVar names Hpass _ IH]; [reflexivity|].
  cbn [map List.concat]. rewrite execs_append, IH.
  rewrite (proj1 (execs_checkTrace envVar) Hpass). reflexivity.
Qed.

Lemma connects_checks names :
  connects (List.concat (map (checkTrace coerce env world) names))
  = map (fun envVar => env !! envVar) names.
Proof.
  induction names as [|envVar names IH]; [reflexivity|].
  cbn [map List.concat]. rewrite connects_app, IH. unfold checkTrace.
  rewrite (checkRun_connects _ _ _ _ _ _ (performChecks_run _ _ _ _)).
  reflexivity.
Qed.

End Run.

(** X14. Every command that a run executes is the migration command, and
    there are at most two of them. A run that is skipped or lacks a
    variable executes none; a run that is not skipped and exits with
    code 0 executes it twice, once per data source. *)
Theorem migration_command_once_per_data_source
  (coerce : string -> option Semver.t) (env : Env) (world : World) :
  let run := script coerce env world in
  (forall cmd, In cmd (execs (trace run)) -> cmd = "npx prisma migrate deploy")
  /\ length (execs (trace run)) <= 2 /\
  (Js.truthy (env !! "SKIP_DB_CHECK") = true \/ missing env <> [] ->
   execs (trace run) = []) /\
  (Js.truthy (env !! "SKIP_DB_CHECK") = false ->
   exitCode run = Some 0%Z ->
   execs (trace run)
   = ["npx prisma migrate deploy"; "npx prisma migrate deploy"]).
Proof.
  cbv zeta.
  destruct (script_cases coerce env world)
    as [[Hskip ->] | [(Hskip & Hmissing & ->) | [(Hskip & Hmissing & Hall & ->)
       | (Hskip & Hmissing & before & x & after & msg & Hsplit & Hbefore
          & Hfail & ->)]]];
    cbn [trace fst exitCode completion snd].
  - cbn [execs length In].
    split; [intros cmd []|]. split; [lia|]. split; [reflexivity|].
    intros Hno. congruence.
  - rewrite execs_append. unfold envLines. rewrite execs_of_envLines.
    cbn [app execs length In].
    split; [intros cmd []|]. split; [lia|]. split; [reflexivity|].
    intros _ Hzero. discriminate Hzero.
  - rewrite !execs_append. unfold envLines.
    rewrite execs_of_envLines, (execs_passed_checks coerce env world _ Hall).
    unfold DATABASE_URLS. cbn [map app execs length In]. split; [intros cmd [<- | [<- | []]]; reflexivity|].
    split; [lia|]. split; [intros [H | H]; congruence | reflexivity].
  - rewrite !execs_append. unfold envLines.
    rewrite execs_of_envLines, (execs_passed_checks coerce env world _ Hbefore).
    cbn [app execs]. rewrite app_nil_r.
    assert (Hx : execs (checkTrace coerce env world x) = [] \/
                 execs (checkTrace coerce env world x) = [migrateCommand])
      by apply execs_checkTrace.
    apply two_split in Hsplit as [(-> & -> & ->) | (-> & -> & ->)];
      destruct Hx as [-> | ->]; cbn [map app execs length In];
      (split; [intros cmd Hin;
               repeat (destruct Hin as [<- | Hin]; [reflexivity|]);
               destruct Hin|]);
      (split; [lia|]);
      (split; [intros [H | H]; congruence | intros _ Hzero; discriminate Hzero]).
Qed.

Lemma migration_command_once_per_data_source_witness :
  exitCode (script Semver.coerce Samples.env Samples.bothHealthy) = Some 0%Z /\
  execs (trace (script Semver.coerce Samples.env Samples.bothHealthy))
  = ["npx prisma migrate deploy"; "npx prisma migrate deploy"].
Proof.
  assert (H : exitCode (script Semver.coerce Samples.env Samples.bothHealthy)
              = Some 0%Z) by (vm_compute; reflexivity).
  split; [exact H|].
  apply (migration_command_once_per_data_source Semver.coerce Samples.env
           Samples.bothHealthy); [vm_compute; reflexivity | exact H].
Defined.

(** X15. The clients that a run connects are those of the required
    variables, in declared order and without a gap: the URLs tried are a
    prefix of the URLs of the variables. None is tried when the run is
    skipped or a variable is missing, and otherwise the second is tried
    exactly when the check of the first has passed. *)
Theorem data_sources_are_contacted_in_order
  (coerce : string -> option Semver.t) (env : Env) (world : World) :
  let tried := connects (trace (script coerce env world)) in
  (exists untried,
      map (fun envVar => env !! envVar) DATABASE_URLS = tried ++ untried) /\
  (Js.truthy (env !! "SKIP_DB_CHECK") = true \/ missing env <> [] ->
   tried = []) /\
  (Js.truthy (env !! "SKIP_DB_CHECK") = false -> missing env = [] ->
   (tried = [env !! "DATABASE_URL"; env !! "DIRECT_DATABASE_URL"] <->
    completion (performChecks coerce (world "DATABASE_URL")
                  (env !! "DATABASE_URL") "DATABASE_URL") = Normal tt)).
Proof.
  cbv zeta.
  destruct (script_cases coerce env world)
    as [[Hskip ->] | [(Hskip & Hmissing & ->) | [(Hskip & Hmissing & Hall & ->)
       | (Hskip & Hmissing & before & x & after & msg & Hsplit & Hbefore
          & Hfail & ->)]]];
    cbn [trace fst].
  - cbn [connects app]. split; [eexists; reflexivity|].
    split; [reflexivity|]. intros Hno. congruence.
  - rewrite connects_app. unfold envLines. rewrite connects_envLines.
    cbn [connects app]. split; [eexists; reflexivity|].
    split; [reflexivity|]. intros _ Hnone. contradiction.
  - rewrite !connects_app. unfold envLines.
    rewrite connects_envLines, connects_checks.
    cbn [connects app]. rewrite app_nil_r.
    split; [exists []; rewrite app_nil_r; reflexivity|].
    split; [intros [H | H]; congruence|]. intros _ _.
    split; [intros _ | reflexivity].
    inversion Hall as [|? ? Hfirst _]. exact Hfirst.
  - rewrite !connects_app. unfold envLines.
    rewrite connects_envLines, connects_checks. unfold checkTrace.
    rewrite (checkRun_connects _ _ _ _ _ _ (performChecks_run _ _ _ _)).
    cbn [connects app].
    apply two_split in Hsplit as [(-> & -> & ->) | (-> & -> & ->)];
      cbn [map app].
    + split; [exists [env !! "DIRECT_DATABASE_URL"]; reflexivity|].
      split; [intros [H | H]; congruence|]. intros _ _.
      split; [discriminate | intros Hpass; congruence].
    + split; [exists []; reflexivity|].
      split; [intros [H | H]; congruence|]. intros _ _.
      split; [intros _ | reflexivity].
      inversion Hbefore as [|? ? Hfirst _]. exact Hfirst.
Qed.

Lemma data_sources_are_contacted_in_order_witness :
  connects (trace (script Semver.coerce Samples.env Samples.secondTooOld))
  = [Some Samples.pgUrl; Some Samples.pgDirectUrl] /\
  connects (trace (script Semver.coerce Samples.env Samples.allLegacy))
  = [Some Samples.pgUrl].
Proof.
  split.
  - apply (data_sources_are_contacted_in_order Semver.coerce Samples.env
             Samples.secondTooOld); vm_compute; reflexivity.
  - vm_compute. reflexivity.
Defined.

(** X16. The run is skipped exactly when the skip variable is a
    non-empty string: the notice and exit code 0 are the whole trace then
    and only then. When the variable is unset or empty, the run starts
    with the lines of the environment validator. *)
Theorem skipped_iff_skip_variable_nonempty
  (coerce : string -> option Semver.t) (env : Env) (world : World) :
  (trace (script coerce env world)
   = [Log Plain "Skipping database check."; Exit 0]
   <-> exists value, env !! "SKIP_DB_CHECK" = Some value /\ value <> "") /\
  (env !! "SKIP_DB_CHECK" = None \/ env !! "SKIP_DB_CHECK" = Some "" ->
   exists rest,
     trace (script coerce env world) = trace (checkEnv env) ++ rest).
Proof.
  assert (Htruthy : Js.truthy (env !! "SKIP_DB_CHECK") = true
                    <-> exists value,
                        env !! "SKIP_DB_CHECK" = Some value /\ value <> "").
  { destruct (env !! "SKIP_DB_CHECK") as [value|]; cbn.
    - destruct (String.eqb_spec value "") as [->|Hne]; cbn.
      + split; [discriminate | intros (v & [= <-] & Hv); contradiction].
      + split; [intros _; exists value; auto | reflexivity].
    - split; [discriminate | intros (v & Hv & _); discriminate]. }
  assert (Hstart : Js.truthy (env !! "SKIP_DB_CHECK") = false ->
                   exists rest,
                     trace (script coerce env world)
                     = envLine env "DATABASE_URL"
                       :: envLine env "DIRECT_DATABASE_URL" :: rest).
  { intros Hskip.
    destruct (script_cases coerce env world)
      as [[Hyes _] | [(_ & _ & ->) | [(_ & _ & _ & ->)
         | (_ & _ & before & x & after & msg & _ & _ & _ & ->)]]];
      [congruence | | |]; cbn [trace fst]; eexists; reflexivity. }
  split.
  - rewrite <- Htruthy. split.
    + intros Htrace.
      destruct (Js.truthy (env !! "SKIP_DB_CHECK")) eqn:Hskip; [reflexivity|].
      destruct (Hstart eq_refl) as [rest Hrest]. rewrite Hrest in Htrace.
      unfold envLine in Htrace.
      destruct (Js.truthy (env !! "DATABASE_URL")); discriminate Htrace.
    + intros Hskip. rewrite (script_skipped coerce env world Hskip). reflexivity.
  - intros Hunset.
    assert (Hskip : Js.truthy (env !! "SKIP_DB_CHECK") = false).
    { destruct Hunset as [-> | ->]; reflexivity. }
    destruct (Hstart Hskip) as [rest ->]. rewrite checkEnv_run.
    exists rest. reflexivity.
Qed.

Lemma skipped_iff_skip_variable_nonempty_witness :
  Answers.envEmptySkip !! "SKIP_DB_CHECK" = Some "" /\
  exists rest,
    trace (script Semver.coerce Answers.envEmptySkip Samples.bothHealthy)
    = [Log Cross "DATABASE_URL is not defined.";
       Log Cross "DIRECT_DATABASE_URL is not defined."] ++ rest.
Proof.
  split; [vm_compute; reflexivity|].
  destruct (skipped_iff_skip_variable_nonempty Semver.coerce
              Answers.envEmptySkip Samples.bothHealthy) as [_ Hruns].
  destruct Hruns as [rest Hrest]; [right; vm_compute; reflexivity|].
  exists rest. rewrite Hrest. vm_compute. reflexivity.
Defined.

(** X17. Nothing is undone when a later data source fails. When the
    first data source passes and the second does not, the run exits with
    code 1 although the migration command has been executed for the
    first; it is the first command of the run, followed only by what the
    check of the second executes. *)
Theorem first_stays_migrated_when_second_fails
  (coerce : string -> option Semver.t) (env : Env) (world : World) :
  let check envVar := performChecks coerce (world envVar) (env !! envVar) envVar in
  Js.truthy (env !! "SKIP_DB_CHECK") = false ->
  missing env = [] ->
  completion (check "DATABASE_URL") = Normal tt ->
  completion (check "DIRECT_DATABASE_URL") <> Normal tt ->
  exitCode (script coerce env world) = Some 1%Z /\
  execs (trace (script coerce env world))
  = "npx prisma migrate deploy" :: execs (trace (check "DIRECT_DATABASE_URL")).
Proof.
  cbv zeta. intros Hskip Hmissing Hfirst Hsecond.
  destruct (script_cases coerce env world)
    as [[Hyes _] | [(_ & Hno & _) | [(_ & _ & Hall & _)
       | (_ & _ & before & x & after & msg & Hsplit & Hbefore & Hfail & ->)]]].
  - congruence.
  - contradiction.
  - exfalso. apply Hsecond.
    inversion Hall as [|? ? _ Hrest]. inversion Hrest as [|? ? H2 _]. exact H2.
  - apply two_split in Hsplit as [(-> & -> & ->) | (-> & -> & ->)].
    + congruence.
    + split; [reflexivity|]. cbn [trace fst map List.concat].
      rewrite !execs_append. unfold envLines. rewrite execs_of_envLines.
      rewrite (proj1 (execs_checkTrace coerce env world "DATABASE_URL") Hfirst).
      cbn [app execs]. rewrite !app_nil_r. reflexivity.
Qed.

Lemma first_stays_migrated_when_second_fails_witness :
  exitCode (script Semver.coerce Samples.env Samples.secondTooOld) = Some 1%Z /\
  execs (trace (script Semver.coerce Samples.env Samples.secondTooOld))
  = ["npx prisma migrate deploy"].
Proof.
  destruct (first_stays_migrated_when_second_fails Semver.coerce Samples.env
              Samples.secondTooOld) as [Hexit Hexecs].
  - vm_compute. reflexivity.
  - vm_compute. reflexivity.
  - vm_compute. reflexivity.
  - vm_compute. discriminate.
  - split; [exact Hexit|]. rewrite Hexecs. vm_compute. reflexivity.
Defined.
